(** * docstring_parser.jsdoc: a shallow embedding of the JSDoc parser

    The development follows [src/docstring_parser/jsdoc.py]:
    - [PyStr]   : the [str] methods the module calls;
    - [Re]      : the five regular expressions of the module, each as the
                  scanner it denotes;
    - [PyInspect] : [inspect.cleandoc];
    - the data model of [docstring_parser.common];
    - [_build_meta] and [parse];
    - the properties of the specification.

    Python strings are modelled as [string] over Latin-1 code points. *)

From Stdlib Require Import String Ascii List Bool Arith Lia.
From stdpp Require Import base option list gmap strings.

Open Scope string_scope.

(** [simpl] computes the concatenation of a string that starts with known
    characters. *)
#[local] Arguments String.append !_ _ / : simpl nomatch.

(** ** Python [str] methods *)

Module PyStr.

Definition nl : ascii := "010"%char.
Definition tab : ascii := "009"%char.
Definition cr : ascii := "013"%char.
Definition dquote : ascii := "034"%char.

(** [str.isspace] on one character, for code points below 256:
    U+0009..U+000D, U+001C..U+0020, U+0085 and U+00A0. *)
Definition isspace (c : ascii) : bool :=
  let n := nat_of_ascii c in
  ((9 <=? n)%nat && (n <=? 13)%nat) || ((28 <=? n)%nat && (n <=? 32)%nat)
  || (n =? 133)%nat || (n =? 160)%nat.

(** [c in chars] for a one-character [c]. *)
Fixpoint contains (c : ascii) (s : string) : bool :=
  match s with
  | EmptyString => false
  | String d s' => Ascii.eqb d c || contains c s'
  end.

Fixpoint lstrip_by (p : ascii -> bool) (s : string) : string :=
  match s with
  | EmptyString => EmptyString
  | String c s' => if p c then lstrip_by p s' else s
  end.

Fixpoint rstrip_by (p : ascii -> bool) (s : string) : string :=
  match s with
  | EmptyString => EmptyString
  | String c s' =>
      match rstrip_by p s' with
      | EmptyString => if p c then EmptyString else String c EmptyString
      | r => String c r
      end
  end.

(** [s.lstrip()] and [s.strip()]: whitespace is removed. *)
Definition lstrip (s : string) : string := lstrip_by isspace s.
Definition strip (s : string) : string := rstrip_by isspace (lstrip_by isspace s).

(** [s.strip(chars)]: every leading and trailing character that occurs in
    [chars] is removed. *)
Definition strip_chars (chars s : string) : string :=
  rstrip_by (fun c => contains c chars) (lstrip_by (fun c => contains c chars) s).

(** [s.partition(sep)] for a one-character [sep], [None] when [sep] does
    not occur. *)
Fixpoint partition (sep : ascii) (s : string) : option (string * string) :=
  match s with
  | EmptyString => None
  | String c s' =>
      if Ascii.eqb c sep then Some (EmptyString, s')
      else match partition sep s' with
           | Some (a, b) => Some (String c a, b)
           | None => None
           end
  end.

(** [s.split(sep, maxsplit)] for a one-character [sep]. *)
Fixpoint split (sep : ascii) (maxsplit : nat) (s : string) : list string :=
  match maxsplit with
  | 0 => [s]
  | S n =>
      match partition sep s with
      | Some (a, b) => a :: split sep n b
      | None => [s]
      end
  end.

(** [s.split(sep)]: no bound on the number of splits. *)
Definition split_all (sep : ascii) (s : string) : list string :=
  split sep (String.length s) s.

(** [sep.join(l)]. *)
Definition join (sep : ascii) (l : list string) : string :=
  String.concat (String sep EmptyString) l.

Fixpoint startswith (pre s : string) : bool :=
  match pre, s with
  | EmptyString, _ => true
  | String _ _, EmptyString => false
  | String a pre', String b s' => Ascii.eqb b a && startswith pre' s'
  end.

Fixpoint endswith (suf s : string) : bool :=
  String.eqb s suf
  || match s with
     | EmptyString => false
     | String _ s' => endswith suf s'
     end.

(** [s[1:]] and [s[:-1]]. *)
Definition drop_first (s : string) : string :=
  match s with
  | EmptyString => EmptyString
  | String _ s' => s'
  end.

Fixpoint drop_last (s : string) : string :=
  match s with
  | EmptyString => EmptyString
  | String c s' =>
      match s' with
      | EmptyString => EmptyString
      | String _ _ => String c (drop_last s')
      end
  end.

(** [s[n:]]. *)
Fixpoint drop (n : nat) (s : string) : string :=
  match n, s with
  | 0, _ => s
  | S _, EmptyString => EmptyString
  | S n', String _ s' => drop n' s'
  end.

(** [s or None]. *)
Definition or_None (s : string) : option string :=
  match s with
  | EmptyString => None
  | String _ _ => Some s
  end.

(** [list(s)]: the one-character strings of [s], what a [for] loop over a
    string visits. *)
Fixpoint chars (s : string) : list string :=
  match s with
  | EmptyString => []
  | String c s' => String c EmptyString :: chars s'
  end.

(** [s.expandtabs()] with the default tab size 8; [col] is the current
    column. *)
Fixpoint expandtabs_from (col : nat) (s : string) : string :=
  match s with
  | EmptyString => EmptyString
  | String c s' =>
      if Ascii.eqb c tab then
        let incr := 8 - col mod 8 in
        string_of_list_ascii (repeat " "%char incr)
          ++ expandtabs_from (col + incr) s'
      else
        String c (expandtabs_from
                    (if Ascii.eqb c nl || Ascii.eqb c cr then 0 else S col) s')
  end.

Definition expandtabs (s : string) : string := expandtabs_from 0 s.

End PyStr.

(** ** The regular expressions of the module *)

Module Re.
Import PyStr.

(** The tail [.*?c] of a pattern: the shortest run of characters other
    than newline ([.] without [re.S]) up to and including the first
    [close]. *)
Fixpoint lazy_until (close : ascii) (s : string) : option string :=
  match s with
  | EmptyString => None
  | String c s' =>
      if Ascii.eqb c close then Some (String c EmptyString)
      else if Ascii.eqb c nl then None
      else String c <$> lazy_until close s'
  end.

(** [re.match(r"\{.*?\}", s)] and [re.match(r"\[.*?\]", s)], with the
    delimiters as arguments; the result is [m.group()]. *)
Definition match_span (open close : ascii) (s : string) : option string :=
  match s with
  | EmptyString => None
  | String c s' =>
      if Ascii.eqb c open then String c <$> lazy_until close s' else None
  end.

(** [re.search(r"\{.*?\}", s)]: the match at the leftmost position that
    has one. *)
Fixpoint search_span (open close : ascii) (s : string) : option string :=
  match match_span open close s with
  | Some m => Some m
  | None =>
      match s with
      | EmptyString => None
      | String _ s' => search_span open close s'
      end
  end.

(** Greedy run of the characters satisfying [p], and what follows it. *)
Fixpoint span (p : ascii -> bool) (s : string) : string * string :=
  match s with
  | EmptyString => (EmptyString, EmptyString)
  | String c s' =>
      if p c then let '(a, b) := span p s' in (String c a, b)
      else (EmptyString, s)
  end.

Definition between (lo hi : nat) (c : ascii) : bool :=
  (lo <=? nat_of_ascii c)%nat && (nat_of_ascii c <=? hi)%nat.

(** [\d] *)
Definition isdigit (c : ascii) : bool := between 48 57 c.
(** [[0-9a-z\.]] under [re.I] *)
Definition isversionchar (c : ascii) : bool :=
  between 48 57 c || between 97 122 c || between 65 90 c || Ascii.eqb c "."%char.
(** [v] under [re.I] *)
Definition is_v (c : ascii) : bool := Ascii.eqb c "v"%char || Ascii.eqb c "V"%char.
(** [.] without [re.S] *)
Definition isdot (c : ascii) : bool := negb (Ascii.eqb c nl).

(** [re.search(r"^(?P<version>v?((?:\d+)(?:\.[0-9a-z\.]+))) (?P<desc>.+)",
    desc, flags=re.I)]: the groups [(version, desc)] of the match.

    [^] without [re.M] holds at index 0 only.  Every quantifier is greedy
    and is followed by a character outside its own class, so no shorter
    run can lead to a match: [v?] takes the [v] when there is one, [\d+]
    the whole run of digits and must be followed by a dot,
    [[0-9a-z\.]+] the whole run and must be followed by a space, and [.+]
    the rest of the line, which must not be empty. *)
Definition match_version (desc : string) : option (string * string) :=
  let '(v, s1) :=
    match desc with
    | String c r => if is_v c then (String c EmptyString, r) else (EmptyString, desc)
    | EmptyString => (EmptyString, EmptyString)
    end in
  let '(digits, s2) := span isdigit s1 in
  match digits, s2 with
  | String _ _, String "."%char s3 =>
      let '(tail, s4) := span isversionchar s3 in
      match tail, s4 with
      | String _ _, String " "%char s5 =>
          match fst (span isdot s5) with
          | EmptyString => None
          | String _ _ as d => Some (v ++ digits ++ String "."%char tail, d)
          end
      | _, _ => None
      end
  | _, _ => None
  end.

(** [re.search("^@", text, flags=re.M)], as the pair
    [(text[:m.start()], text[m.start():])]; [bol] tells whether the
    current index is the beginning of a line.  Without a match the pair
    is [(text, "")], the two values the caller's [else] branch assigns. *)
Fixpoint split_at_tag (bol : bool) (s : string) : string * string :=
  match s with
  | EmptyString => (EmptyString, EmptyString)
  | String c s' =>
      if bol && Ascii.eqb c "@"%char then (EmptyString, s)
      else let '(a, b) := split_at_tag (Ascii.eqb c nl) s' in (String c a, b)
  end.

(** [re.finditer(r"(^@.*?)(?=^@|\Z)", s, flags=re.S | re.M)].

    A match starts at an [@] that begins a line and, [.*?] being lazy and
    matching newlines, ends just before the next [@] that begins a line
    or at the end of [s]; the next search resumes where the match ended.
    [tag_spans bol s] returns the characters of [s] that precede its
    first line-initial [@] (they continue the span that was open before
    [s]) and the spans that start in [s]. *)
Fixpoint tag_spans (bol : bool) (s : string) : string * list string :=
  match s with
  | EmptyString => (EmptyString, [])
  | String c s' =>
      let '(cur, more) := tag_spans (Ascii.eqb c nl) s' in
      if bol && Ascii.eqb c "@"%char then (EmptyString, String c cur :: more)
      else (String c cur, more)
  end.

Definition finditer_tags (s : string) : list string := snd (tag_spans true s).

End Re.

(** ** [inspect.cleandoc] *)

Module PyInspect.
Import PyStr.

(** The indentation of a line that is not blank: [len(line) - content]
    where [content = len(line.lstrip())] is not zero. *)
Definition indent (line : string) : option nat :=
  let content := String.length (lstrip line) in
  if (content =? 0)%nat then None else Some (String.length line - content).

(** The smallest indentation of the lines that have one; [None] stands
    for the initial [sys.maxsize], the value [margin] keeps when every
    line is blank. *)
Fixpoint margin (lines : list string) : option nat :=
  match lines with
  | [] => None
  | line :: rest =>
      match indent line, margin rest with
      | Some i, Some m => Some (Nat.min i m)
      | Some i, None => Some i
      | None, m => m
      end
  end.

(** [while lines and not lines[0]: lines.pop(0)] *)
Fixpoint pop_leading (lines : list string) : list string :=
  match lines with
  | EmptyString :: rest => pop_leading rest
  | _ => lines
  end.

(** [while lines and not lines[-1]: lines.pop()] *)
Fixpoint pop_trailing (lines : list string) : list string :=
  match lines with
  | [] => []
  | line :: rest =>
      match pop_trailing rest, line with
      | [], EmptyString => []
      | r, _ => line :: r
      end
  end.

(** [inspect.cleandoc(doc)], as the standard library of the interpreters
    the package supports defines it. *)
Definition cleandoc (doc : string) : string :=
  let lines := split_all nl (expandtabs doc) in
  let lines :=
    match lines with
    | [] => []
    | first :: rest =>
        lstrip first ::
          match margin rest with
          | Some m => map (drop m) rest
          | None => rest
          end
    end in
  join nl (pop_leading (pop_trailing lines)).

End PyInspect.

(** ** The data model of [docstring_parser.common] *)

(** Exceptions the module can raise: its own [ParseError], and the
    built-in exceptions of the statements it executes. *)
Inductive Exception : Type :=
| ParseError (msg : string)
| AttributeError
| UnboundLocalError
| ValueError
| IndexError.

Inductive Result (A : Type) : Type :=
| Ok (a : A)
| Raise (e : Exception).
Arguments Ok {A} a.
Arguments Raise {A} e.

#[global] Instance Result_ret : MRet Result := fun _ a => Ok a.
#[global] Instance Result_bind : MBind Result := fun _ _ f m =>
  match m with
  | Ok a => f a
  | Raise e => Raise e
  end.
#[global] Instance Result_fmap : FMap Result := fun _ _ f m =>
  match m with
  | Ok a => Ok (f a)
  | Raise e => Raise e
  end.

Definition is_Ok {A} (r : Result A) : bool :=
  match r with
  | Ok _ => true
  | Raise _ => false
  end.

(** Modelled from the spec: the keyword classes of
    [docstring_parser.common], five sets of tag names.  Their members are
    not part of the module; the development takes the table as a
    parameter. *)
Record Keywords : Type := {
  PARAM_KEYWORDS : gset string;
  RAISES_KEYWORDS : gset string;
  DEPRECATION_KEYWORDS : gset string;
  RETURNS_KEYWORDS : gset string;
  YIELDS_KEYWORDS : gset string
}.

(** Modelled from the spec: the metadata records of
    [docstring_parser.common], one constructor per class, with the
    keyword arguments the module passes.  [type_name], [is_optional],
    [default] and [version] may be [None]. *)
Inductive DocstringMeta : Type :=
| DocstringMeta_ (args : list string) (description : string)
| DocstringParam (args : list string) (description : string)
    (arg_name : string) (type_name : option string)
    (is_optional : option bool) (default : option string)
| DocstringReturns (args : list string) (description : string)
    (type_name : option string) (is_generator : bool)
| DocstringDeprecated (args : list string) (version : option string)
    (description : string)
| DocstringRaises (args : list string) (description : string)
    (type_name : option string).

Definition meta_args (m : DocstringMeta) : list string :=
  match m with
  | DocstringMeta_ a _ | DocstringParam a _ _ _ _ _ | DocstringReturns a _ _ _
  | DocstringDeprecated a _ _ | DocstringRaises a _ _ => a
  end.

(** Modelled from the spec: the style tag of a [Docstring]; [parse] uses
    [REST]. *)
Inductive DocstringStyle : Type := REST | JSDOC.

(** Modelled from the spec: the [Docstring] object of
    [docstring_parser.common]. *)
Record Docstring : Type := {
  style : DocstringStyle;
  short_description : option string;
  long_description : option string;
  blank_after_short_description : bool;
  blank_after_long_description : bool;
  meta : list DocstringMeta
}.

(** Modelled from the spec: the constructor [Docstring(style=...)] makes a
    new object, with no description and an empty [meta] list of its own. *)
Definition Docstring_init (s : DocstringStyle) : Docstring :=
  {| style := s;
     short_description := None;
     long_description := None;
     blank_after_short_description := false;
     blank_after_long_description := false;
     meta := [] |}.

Definition set_short_description (v : option string) (d : Docstring) : Docstring :=
  {| style := style d;
     short_description := v;
     long_description := long_description d;
     blank_after_short_description := blank_after_short_description d;
     blank_after_long_description := blank_after_long_description d;
     meta := meta d |}.

Definition set_long_description (v : option string) (d : Docstring) : Docstring :=
  {| style := style d;
     short_description := short_description d;
     long_description := v;
     blank_after_short_description := blank_after_short_description d;
     blank_after_long_description := blank_after_long_description d;
     meta := meta d |}.

Definition set_blank_after_short_description (v : bool) (d : Docstring) : Docstring :=
  {| style := style d;
     short_description := short_description d;
     long_description := long_description d;
     blank_after_short_description := v;
     blank_after_long_description := blank_after_long_description d;
     meta := meta d |}.

Definition set_blank_after_long_description (v : bool) (d : Docstring) : Docstring :=
  {| style := style d;
     short_description := short_description d;
     long_description := long_description d;
     blank_after_short_description := blank_after_short_description d;
     blank_after_long_description := v;
     meta := meta d |}.

(** [d.meta.append(m)] *)
Definition meta_append (m : DocstringMeta) (d : Docstring) : Docstring :=
  {| style := style d;
     short_description := short_description d;
     long_description := long_description d;
     blank_after_short_description := blank_after_short_description d;
     blank_after_long_description := blank_after_long_description d;
     meta := meta d ++ [m] |}.

(** ** [_build_meta] *)

Import PyStr.

(** The local variables of the param-class branch.  [v_arg_name] is [None]
    as long as [arg_name] has not been assigned; the three others start as
    Python's [None]. *)
Record ParamLocals : Type := {
  v_type_name : option string;
  v_arg_name : option string;
  v_is_optional : option bool;
  v_default : option string
}.

(** The two conditional slices that remove one delimiter at each end. *)
Definition unwrap (open close : string) (s : string) : string :=
  let s := if startswith open s then drop_first s else s in
  if endswith close s then drop_last s else s.

(** One iteration of [for name in _arg_name] (lines 45-70). *)
Definition scan_param_token (st : ParamLocals) (name : string) : Result ParamLocals :=
  let type_match := Re.search_span "{" "}" name in
  let name_match := Re.match_span "[" "]" name in
  match type_match, name_match with
  | Some m, _ =>
      let type_name := unwrap "{" "}" m in
      if endswith "=" type_name then
        Ok {| v_type_name := Some (drop_last type_name);
              v_arg_name := v_arg_name st;
              v_is_optional := Some true;
              v_default := v_default st |}
      else
        Ok {| v_type_name := Some type_name;
              v_arg_name := v_arg_name st;
              v_is_optional := v_is_optional st;
              v_default := v_default st |}
  | None, Some m =>
      let arg_name := m in
      match v_type_name st with
      | None => Raise AttributeError
      | Some type_name =>
          let type_name := unwrap "[" "]" type_name in
          if contains "=" arg_name then
            match split_all "=" arg_name with
            | [a; d] =>
                Ok {| v_type_name := Some type_name;
                      v_arg_name := Some a;
                      v_is_optional := Some true;
                      v_default := Some d |}
            | _ => Raise ValueError
            end
          else
            Ok {| v_type_name := Some type_name;
                  v_arg_name := Some arg_name;
                  v_is_optional := Some true;
                  v_default := v_default st |}
      end
  | None, None =>
      Ok {| v_type_name := v_type_name st;
            v_arg_name := Some name;
            v_is_optional := v_is_optional st;
            v_default := v_default st |}
  end.

(** A [for] loop whose body updates the locals or raises. *)
Fixpoint for_tokens {S A : Type} (body : S -> A -> Result S) (st : S) (l : list A)
  : Result S :=
  match l with
  | [] => Ok st
  | x :: l' => st' ← body st x; for_tokens body st' l'
  end.

(** One iteration of [for name in args[1:]] in the returns and raises
    branches (lines 83-91 and 114-122). *)
Definition scan_type_token (type_name : option string) (name : string)
  : Result (option string) :=
  match Re.match_span "{" "}" name with
  | Some m => Ok (Some (unwrap "{" "}" m))
  | None => Ok type_name
  end.

Section BuildMeta.
Context (K : Keywords).

Definition _build_meta (args : list string) (desc : string) : Result DocstringMeta :=
  match args with
  | [] => Raise IndexError
  | key :: args_tail =>
      if bool_decide (key ∈ PARAM_KEYWORDS K) then
        _arg_name ←
          match args_tail with
          | [_; _] => Ok args_tail
          | [a] => Ok (chars a)
          | _ => Raise (ParseError
                   ("Expected two or three arguments for a " ++ key ++ " keyword."))
          end;
        st ← for_tokens scan_param_token
               {| v_type_name := None; v_arg_name := None;
                  v_is_optional := None; v_default := None |} _arg_name;
        match v_arg_name st with
        | None => Raise UnboundLocalError
        | Some arg_name =>
            Ok (DocstringParam args desc arg_name (v_type_name st)
                  (v_is_optional st) (v_default st))
        end
      else if bool_decide (key ∈ RETURNS_KEYWORDS K ∪ YIELDS_KEYWORDS K) then
        type_name ← for_tokens scan_type_token None args_tail;
        Ok (DocstringReturns args desc type_name
              (bool_decide (key ∈ YIELDS_KEYWORDS K)))
      else if bool_decide (key ∈ DEPRECATION_KEYWORDS K) then
        match Re.match_version desc with
        | Some (version, d) => Ok (DocstringDeprecated args (Some version) d)
        | None => Ok (DocstringDeprecated args None desc)
        end
      else if bool_decide (key ∈ RAISES_KEYWORDS K) then
        type_name ← for_tokens scan_type_token None args_tail;
        Ok (DocstringRaises args desc type_name)
      else Ok (DocstringMeta_ args desc)
  end.

(** ** The tag interpreter: the body of the loop of [parse] *)

(** Lines 176-189: [(tag, desc_chunk)].  An unpacking that fails is a
    [ValueError], which the [except] clause turns into a [ParseError]. *)
Definition split_tag (chunk : string) : Result (string * string) :=
  '(tag, desc_chunk) ←
    match split " " 1 (lstrip chunk) with
    | [tag] => Ok (tag, "")
    | [tag; desc_chunk] => Ok (tag, desc_chunk)
    | _ => Raise (ParseError
             ("Error parsing meta information near " ++ String dquote chunk
                ++ String dquote "."))
    end;
  Ok (strip_chars "@" tag, desc_chunk).

Definition arity_message (tag : string) : string :=
  "Expected two or three arguments for a " ++ String dquote tag
    ++ String dquote " keyword.".

(** Lines 191-219: [(args, desc_chunk)]. *)
Definition tag_args (tag desc_chunk : string) : Result (list string * string) :=
  if bool_decide (tag ∈ ["param"; "typedef"; "property"]) then
    match split " " 2 (strip_chars (String nl "") (lstrip desc_chunk)) with
    | [u; args_chunk; desc_chunk] =>
        Ok ([tag; u; strip_chars (String nl "") args_chunk], desc_chunk)
    | [u; args_chunk] =>
        Ok ([tag; u; strip_chars (String nl "") args_chunk], "")
    | _ => Raise (ParseError (arity_message tag))
    end
  else if bool_decide (tag ∈ ["return"; "throws"; "type"]) then
    match split " " 1 (lstrip desc_chunk) with
    | [args_chunk; desc_chunk] => Ok ([tag; args_chunk], desc_chunk)
    | [args_chunk] => Ok ([tag; args_chunk], "")
    | _ => Raise (ParseError
             ("Expected two arguments for a " ++ String dquote tag
                ++ String dquote " keyword."))
    end
  else Ok ([strip_chars (String nl "") tag], desc_chunk).

(** Lines 221-224. *)
Definition clean_description (desc_chunk : string) : Result string :=
  let desc := strip desc_chunk in
  if contains nl desc then
    match split nl 1 desc with
    | [first_line; rest] =>
        Ok (first_line ++ String nl (PyInspect.cleandoc rest))
    | _ => Raise ValueError
    end
  else Ok desc.

Definition interpret_chunk (chunk : string) : Result DocstringMeta :=
  '(tag, desc_chunk) ← split_tag chunk;
  '(args, desc_chunk) ← tag_args tag desc_chunk;
  desc ← clean_description desc_chunk;
  _build_meta args desc.

End BuildMeta.

(** ** [parse] *)

(** [parse] builds its result by mutation: it makes a [Docstring] object,
    assigns its attributes and appends to its [meta] list.  Objects live in
    a store, [M] threads the store and the exception. *)
Abbreviation store := (gmap nat Docstring).

Definition M (A : Type) : Type := store -> Result A * store.

#[global] Instance M_ret : MRet M := fun _ a σ => (Ok a, σ).
#[global] Instance M_bind : MBind M := fun _ _ f m σ =>
  match m σ with
  | (Ok a, σ') => f a σ'
  | (Raise e, σ') => (Raise e, σ')
  end.

(** A computation that has no effect on the store. *)
Definition lift {A} (r : Result A) : M A := fun σ => (r, σ).

(** [Docstring(style=s)]: a new object at an address the store does not
    use yet. *)
Definition new_Docstring (s : DocstringStyle) : M nat := fun σ =>
  let l := fresh (dom σ) in (Ok l, <[l := Docstring_init s]> σ).

(** An attribute assignment, or a method call that mutates, on the object
    at [l]. *)
Definition update (l : nat) (f : Docstring -> Docstring) : M unit := fun σ =>
  (Ok tt, alter f l σ).

Fixpoint for_each {A} (body : A -> M unit) (l : list A) : M unit :=
  match l with
  | [] => mret tt
  | x :: l' => body x ≫= fun _ => for_each body l'
  end.

Section Parse.
Context (K : Keywords).

(** Lines 163-169, on the object [ret]. *)
Definition assign_descriptions (ret : nat) (desc_chunk : string) : M unit :=
  match split nl 1 desc_chunk with
  | [] => lift (Raise IndexError)
  | part0 :: parts_tail =>
      update ret (set_short_description (or_None part0)) ≫= fun _ =>
      match parts_tail with
      | [] => mret tt
      | part1 :: _ =>
          let long_desc_chunk := part1 in
          update ret (set_blank_after_short_description
                        (startswith (String nl "") long_desc_chunk)) ≫= fun _ =>
          update ret (set_blank_after_long_description
                        (endswith (String nl (String nl "")) long_desc_chunk)) ≫= fun _ =>
          update ret (set_long_description (or_None (strip long_desc_chunk)))
      end
  end.

Definition parse (text : string) : M nat :=
  ret ← new_Docstring REST;
  let text := PyInspect.cleandoc text in
  let '(desc_chunk, meta_chunk) := Re.split_at_tag true text in
  assign_descriptions ret desc_chunk ≫= fun _ =>
  for_each
    (fun chunk =>
       m ← lift (interpret_chunk K chunk);
       update ret (meta_append m))
    (Re.finditer_tags meta_chunk) ≫= fun _ =>
  mret ret.

(** What the caller of [parse(text)] holds afterwards, when the call is
    made in store [σ]: the exception, or the object that the returned
    reference designates. *)
Definition parse_outcome (σ : store) (text : string) : Result (option Docstring) :=
  let '(r, σ') := parse text σ in (fun l => σ' !! l) <$> r.

(** The raw chunks of a text, in the order the loop visits them. *)
Definition tag_chunks (text : string) : list string :=
  Re.finditer_tags (snd (Re.split_at_tag true (PyInspect.cleandoc text))).

End Parse.

(** Modelled from the spec: a keyword table with the tag names the
    specification gives for each class (sections 3 and 4.3): [param],
    [typedef], [property]; [return]; [yield]; [throws]; [deprecated]. *)
Definition spec_keywords : Keywords :=
  {| PARAM_KEYWORDS := {[ "param"; "typedef"; "property" ]};
     RAISES_KEYWORDS := {[ "throws" ]};
     DEPRECATION_KEYWORDS := {[ "deprecated" ]};
     RETURNS_KEYWORDS := {[ "return" ]};
     YIELDS_KEYWORDS := {[ "yield" ]} |}.

(** ** The vocabulary of the properties *)

(** A type [T] that [{T}] carries unchanged: no space (the fields are
    split on spaces), no newline and no closing brace (the span [{.*?}] ends
    at the first brace of its line), and no final [=], the mark of an
    optional parameter. *)
Definition plain_type (T : string) : bool :=
  negb (contains " " T) && negb (contains nl T) && negb (contains "}" T)
  && negb (endswith "=" T).

(** A plain argument name: no space or newline, no brace (a brace span would
    make the token a type) and no opening bracket in front. *)
Definition plain_name (name : string) : bool :=
  negb (contains " " name) && negb (contains nl name)
  && negb (contains "{" name) && negb (startswith "[" name).

(** Every character of [s] satisfies [p]. *)
Fixpoint all (p : ascii -> bool) (s : string) : bool :=
  match s with
  | EmptyString => true
  | String c s' => p c && all p s'
  end.




(** The split the claim describes: the text before the first run of
    whitespace, and the text after that run. *)
Fixpoint break_whitespace (s : string) : string * string :=
  match s with
  | EmptyString => (EmptyString, EmptyString)
  | String c s' =>
      if isspace c then (EmptyString, lstrip s')
      else let '(a, b) := break_whitespace s' in (String c a, b)
  end.

(** The pair [(tag_name, rest)] as the claim describes it: the leading [@]
    is removed, the remainder is split at its first run of whitespace. *)
Definition claimed_split_tag (chunk : string) : string * string :=
  match chunk with
  | String "@"%char s => break_whitespace s
  | _ => break_whitespace chunk
  end.

(** The fields the claim counts: the maximal runs of characters that are
    not whitespace. *)
Fixpoint whitespace_runs (s : string) : string * list string :=
  match s with
  | EmptyString => (EmptyString, [])
  | String c s' =>
      let '(w, ws) := whitespace_runs s' in
      if isspace c then
        (EmptyString, match w with EmptyString => ws | String _ _ => w :: ws end)
      else (String c w, ws)
  end.

Definition whitespace_fields (s : string) : list string :=
  let '(w, ws) := whitespace_runs s in
  match w with
  | EmptyString => ws
  | String _ _ => w :: ws
  end.

(** The number of [@] characters that begin a line. *)
Fixpoint count_tags (bol : bool) (s : string) : nat :=
  match s with
  | EmptyString => 0
  | String c s' =>
      (if bol && Ascii.eqb c "@" then 1 else 0) + count_tags (Ascii.eqb c nl) s'
  end.

(** The records of a list of chunks, or the exception of the first chunk
    that raises. *)
Fixpoint interpret_all (K : Keywords) (chunks : list string) : Result (list DocstringMeta) :=
  match chunks with
  | [] => Ok []
  | chunk :: rest =>
      m ← interpret_chunk K chunk; ms ← interpret_all K rest; Ok (m :: ms)
  end.

(** The attributes lines 163-169 assign, as a function of the object. *)
Definition with_descriptions (desc_chunk : string) (d : Docstring) : Docstring :=
  match split nl 1 desc_chunk with
  | [] => d
  | [part0] => set_short_description (or_None part0) d
  | part0 :: part1 :: _ =>
      set_long_description (or_None (strip part1))
        (set_blank_after_long_description (endswith (String nl (String nl "")) part1)
           (set_blank_after_short_description (startswith (String nl "") part1)
              (set_short_description (or_None part0) d)))
  end.

Definition with_metas (ms : list DocstringMeta) (d : Docstring) : Docstring :=
  fold_left (fun d m => meta_append m d) ms d.

(** The object [parse] returns for a text whose chunks give the records
    [ms]. *)
Definition parsed (text : string) (ms : list DocstringMeta) : Docstring :=
  with_metas ms
    (with_descriptions (fst (Re.split_at_tag true (PyInspect.cleandoc text)))
       (Docstring_init REST)).

(** A text with a param, a return and a second param tag. *)
Definition mixed_tags : string :=
  "@param {T} a first" ++ String nl
    ("@return {U} second" ++ String nl "@param {V} b third").

(** * Properties *)

(** ** The scanners on sample inputs *)

Section Samples.
Import PyStr.

(** [.*?] is lazy: the span ends at the first closing brace. *)
Example search_span_is_lazy :
  Re.search_span "{" "}" "x {a} {b}}" = Some "{a}".
Proof. reflexivity. Qed.

(** [.] does not cross a newline; the search resumes further right. *)
Example search_span_stays_on_line :
  Re.search_span "{" "}" ("{a" ++ String nl "{b}") = Some "{b}".
Proof. reflexivity. Qed.

(** [re.match] is anchored at index 0. *)
Example match_span_is_anchored :
  Re.match_span "[" "]" "x[a]" = None /\ Re.match_span "[" "]" "[a]x" = Some "[a]".
Proof. split; reflexivity. Qed.

(** The version group needs its dot; [desc] is the rest of the first line. *)
Example match_version_samples :
  Re.match_version "v1.2.3 use X instead" = Some ("v1.2.3", "use X instead")
  /\ Re.match_version "V1.0rc1 x" = Some ("V1.0rc1", "x")
  /\ Re.match_version "v2 use X instead" = None
  /\ Re.match_version "1.2 " = None
  /\ Re.match_version ("1.2 a" ++ String nl "b") = Some ("1.2", "a").
Proof. repeat split; reflexivity. Qed.

(** A chunk runs from an [@] that begins a line to the next one; an [@]
    inside a line starts nothing. *)
Example finditer_tags_sample :
  Re.finditer_tags ("@a x" ++ String nl (" y @z" ++ String nl "@b"))
  = ["@a x" ++ String nl (" y @z" ++ String nl ""); "@b"].
Proof. reflexivity. Qed.

(** [split] keeps empty fields and stops after [maxsplit] separators. *)
Example split_samples :
  split " " 2 "x  " = ["x"; ""; ""]
  /\ split " " 2 "a b c d" = ["a"; "b"; "c d"]
  /\ split " " 1 "" = [""].
Proof. repeat split; reflexivity. Qed.

(** Tabs become spaces, the common indentation of the later lines and the
    blank lines at both ends go. *)
Example cleandoc_sample :
  PyInspect.cleandoc
    (String nl ("  a" ++ String tab ("b" ++ String nl
       ("    c" ++ String nl ("     d" ++ String nl ("  " ++ String nl ""))))))
  = "a     b" ++ String nl ("  c" ++ String nl "   d").
Proof. reflexivity. Qed.

End Samples.

(** ** Facts about the string methods *)

Section StrFacts.
Import PyStr.

Lemma append_nil_r (s : string) : s ++ "" = s.
Proof. induction s as [|c s IH]; simpl; [reflexivity | now rewrite IH]. Qed.

Lemma append_assoc (a b c : string) : (a ++ b) ++ c = a ++ (b ++ c).
Proof. induction a as [|x a IH]; simpl; [reflexivity | now rewrite IH]. Qed.

Lemma contains_app (c : ascii) (a b : string) :
  contains c (a ++ b) = contains c a || contains c b.
Proof.
  induction a as [|x a IH]; simpl; [reflexivity|].
  rewrite IH. apply orb_assoc.
Qed.

Lemma partition_app (sep : ascii) (a b : string) :
  contains sep a = false -> partition sep (a ++ String sep b) = Some (a, b).
Proof.
  induction a as [|x a IH]; simpl; intros H.
  - now rewrite Ascii.eqb_refl.
  - apply orb_false_iff in H as [Hx Ha]. rewrite Hx, (IH Ha). reflexivity.
Qed.

Lemma partition_None (sep : ascii) (s : string) :
  contains sep s = false -> partition sep s = None.
Proof.
  induction s as [|x s IH]; simpl; intros H; [reflexivity|].
  apply orb_false_iff in H as [Hx Hs]. now rewrite Hx, (IH Hs).
Qed.

Lemma partition_Some (sep : ascii) (s : string) :
  contains sep s = true ->
  exists a b, partition sep s = Some (a, b) /\ s = a ++ String sep b
              /\ contains sep a = false.
Proof.
  induction s as [|x s IH]; simpl; intros H; [discriminate|].
  destruct (Ascii.eqb x sep) eqn:Hx.
  - apply Ascii.eqb_eq in Hx as ->. exists "", s. repeat split.
  - destruct (IH H) as (a & b & Hp & -> & Ha). exists (String x a), b.
    rewrite Hp. repeat split. simpl. now rewrite Hx.
Qed.

(** [split(sep, n)] returns between one and [n + 1] fields. *)
Lemma split_length (sep : ascii) (n : nat) (s : string) :
  1 <= length (split sep n s) <= S n.
Proof.
  revert s. induction n as [|n IH]; intros s; simpl; [lia|].
  destruct (partition sep s) as [[a b]|]; simpl; [|lia].
  specialize (IH b). lia.
Qed.

Lemma split_no_sep (sep : ascii) (n : nat) (s : string) :
  contains sep s = false -> split sep n s = [s].
Proof.
  intros H. destruct n; simpl; [reflexivity|]. now rewrite (partition_None _ _ H).
Qed.

Lemma split_app (sep : ascii) (n : nat) (a b : string) :
  contains sep a = false ->
  split sep (S n) (a ++ String sep b) = a :: split sep n b.
Proof. intros H. simpl. now rewrite (partition_app _ _ _ H). Qed.

Lemma lstrip_by_head (p : ascii -> bool) (c : ascii) (s : string) :
  p c = false -> lstrip_by p (String c s) = String c s.
Proof. intros H. simpl. now rewrite H. Qed.

Lemma rstrip_by_app (p : ascii -> bool) (a : string) (c : ascii) (b : string) :
  p c = false -> rstrip_by p (a ++ String c b) = a ++ String c (rstrip_by p b).
Proof.
  intros Hc. induction a as [|x a IH]; simpl.
  - destruct (rstrip_by p b); [now rewrite Hc | reflexivity].
  - rewrite IH. destruct a; reflexivity.
Qed.

(** Stripping changes nothing when no character of the string is one to
    strip. *)
Lemma lstrip_by_id (p : ascii -> bool) (s : string) :
  (forall x, contains x s = true -> p x = false) -> lstrip_by p s = s.
Proof.
  destruct s as [|x s]; simpl; intros H; [reflexivity|].
  rewrite (H x); [reflexivity|]. now rewrite Ascii.eqb_refl.
Qed.

Lemma rstrip_by_id (p : ascii -> bool) (s : string) :
  (forall x, contains x s = true -> p x = false) -> rstrip_by p s = s.
Proof.
  induction s as [|x s IH]; simpl; intros H; [reflexivity|].
  rewrite IH.
  - destruct s; [|reflexivity].
    rewrite (H x); [reflexivity|]. now rewrite Ascii.eqb_refl.
  - intros y Hy. apply H. rewrite Hy. apply orb_true_r.
Qed.

Lemma absent_not_stripped (c : ascii) (s : string) :
  contains c s = false ->
  forall x, contains x s = true -> contains x (String c "") = false.
Proof.
  intros Hc x Hx. simpl. rewrite orb_false_r.
  destruct (Ascii.eqb c x) eqn:E; [|reflexivity].
  apply Ascii.eqb_eq in E as ->. congruence.
Qed.

Lemma strip_chars_absent (c : ascii) (s : string) :
  contains c s = false -> strip_chars (String c "") s = s.
Proof.
  intros H. unfold strip_chars.
  rewrite lstrip_by_id by now apply absent_not_stripped.
  apply rstrip_by_id. now apply absent_not_stripped.
Qed.

Lemma drop_last_app (s : string) (c : ascii) : drop_last (s ++ String c "") = s.
Proof.
  induction s as [|x s IH]; simpl; [reflexivity|].
  rewrite IH. destruct s; reflexivity.
Qed.

Lemma endswith_app (s : string) (c : ascii) :
  endswith (String c "") (s ++ String c "") = true.
Proof.
  induction s as [|x s IH]; simpl.
  - now rewrite Ascii.eqb_refl.
  - rewrite IH. apply orb_true_r.
Qed.

End StrFacts.

(** ** Facts about the scanners *)

Section ReFacts.
Import PyStr.

Lemma lazy_until_app (close : ascii) (t rest : string) :
  contains close t = false -> contains nl t = false ->
  Re.lazy_until close (t ++ String close rest) = Some (t ++ String close "").
Proof.
  induction t as [|x t IH]; simpl; intros Hc Hn.
  - now rewrite Ascii.eqb_refl.
  - apply orb_false_iff in Hc as [Hx Hc]. apply orb_false_iff in Hn as [Hy Hn].
    rewrite Hx, Hy, (IH Hc Hn). reflexivity.
Qed.

Lemma match_span_app (open close : ascii) (t rest : string) :
  contains close t = false -> contains nl t = false ->
  Re.match_span open close (String open (t ++ String close rest))
  = Some (String open (t ++ String close "")).
Proof.
  intros Hc Hn. unfold Re.match_span.
  rewrite Ascii.eqb_refl, (lazy_until_app _ _ _ Hc Hn). reflexivity.
Qed.

Lemma search_span_app (open close : ascii) (t rest : string) :
  contains close t = false -> contains nl t = false ->
  Re.search_span open close (String open (t ++ String close rest))
  = Some (String open (t ++ String close "")).
Proof.
  intros Hc Hn. cbn [Re.search_span].
  now rewrite (match_span_app _ _ _ _ Hc Hn).
Qed.

Lemma search_span_absent (open close : ascii) (s : string) :
  contains open s = false -> Re.search_span open close s = None.
Proof.
  induction s as [|x s IH]; simpl; intros H; [reflexivity|].
  apply orb_false_iff in H as [Hx Hs]. rewrite Hx. now apply IH.
Qed.

Lemma match_span_not_open (open close : ascii) (s : string) :
  startswith (String open "") s = false -> Re.match_span open close s = None.
Proof.
  destruct s as [|x s]; simpl; [reflexivity|].
  rewrite andb_true_r. now intros ->.
Qed.

(** The braces of a type token come off. *)
Lemma unwrap_braces (t : string) :
  unwrap "{" "}" (String "{" (t ++ "}")) = t.
Proof.
  unfold unwrap. simpl startswith. cbn [drop_first].
  rewrite (endswith_app t "}"). apply drop_last_app.
Qed.

End ReFacts.

(** ** The tag interpreter on a param chunk *)

Section ParamChunk.
Import PyStr.

Lemma plain_type_inv (T : string) :
  plain_type T = true ->
  contains " " T = false /\ contains nl T = false /\ contains "}" T = false
  /\ endswith "=" T = false.
Proof.
  unfold plain_type. rewrite !andb_true_iff, !negb_true_iff. tauto.
Qed.

Lemma plain_name_inv (name : string) :
  plain_name name = true ->
  contains " " name = false /\ contains nl name = false
  /\ contains "{" name = false /\ startswith "[" name = false.
Proof.
  unfold plain_name. rewrite !andb_true_iff, !negb_true_iff. tauto.
Qed.

(** A raw chunk starts with [@]: nothing is stripped on its left. *)
Lemma split_tag_space (t rest : string) :
  contains " " t = false ->
  split_tag (String "@" (t ++ String " " rest))
  = Ok (strip_chars "@" (String "@" t), rest).
Proof.
  intros Hs. unfold split_tag, lstrip.
  rewrite lstrip_by_head by reflexivity.
  change (String "@" (t ++ String " " rest)) with (String "@" t ++ String " " rest).
  rewrite split_app; [reflexivity|]. simpl. exact Hs.
Qed.

Lemma split_tag_bare (t : string) :
  contains " " t = false ->
  split_tag (String "@" t) = Ok (strip_chars "@" (String "@" t), "").
Proof.
  intros Hs. unfold split_tag, lstrip.
  rewrite lstrip_by_head by reflexivity.
  rewrite split_no_sep; [reflexivity|]. simpl. exact Hs.
Qed.

(** The three fields of [{T} a desc]: the type token, the token [a] and
    the description, whose final newlines are gone. *)
Lemma tag_args_param (T a desc : string) :
  contains " " T = false -> contains " " a = false ->
  tag_args "param" ("{" ++ T ++ "} " ++ a ++ " " ++ desc)
  = Ok (["param"; "{" ++ T ++ "}"; strip_chars (String nl "") a],
        rstrip_by (fun c => contains c (String nl "")) desc).
Proof.
  intros HT Ha. unfold tag_args.
  rewrite bool_decide_true by apply list_elem_of_here.
  simpl String.append. unfold lstrip, strip_chars.
  rewrite !lstrip_by_head by reflexivity.
  change (String "{" (T ++ String "}" (String " " (a ++ String " " desc))))
    with ((String "{" (T ++ String "}" (String " " a))) ++ String " " desc)
    || replace (String "{" (T ++ String "}" (String " " (a ++ String " " desc))))
         with ((String "{" (T ++ String "}" (String " " a))) ++ String " " desc)
         by (simpl; now rewrite append_assoc).
  rewrite rstrip_by_app by reflexivity.
  replace (String "{" (T ++ String "}" (String " " a)) ++
             String " " (rstrip_by (fun c => contains c (String nl "")) desc))
    with (String "{" (T ++ "}") ++ String " "
            (a ++ String " " (rstrip_by (fun c => contains c (String nl "")) desc)))
    by (simpl; now rewrite !append_assoc).
  rewrite split_app.
  - rewrite split_app by exact Ha. reflexivity.
  - simpl. rewrite contains_app, HT. reflexivity.
Qed.

(** [clean_description] always returns: the unpacking of line 223 cannot
    fail, since it comes after the test for a newline. *)
Lemma clean_description_Ok (desc_chunk : string) :
  exists desc, clean_description desc_chunk = Ok desc.
Proof.
  unfold clean_description.
  destruct (contains nl (strip desc_chunk)) eqn:E; [|eauto].
  destruct (partition_Some _ _ E) as (a & b & Hp & _ & _).
  simpl. rewrite Hp. eauto.
Qed.

Lemma interpret_chunk_eq (K : Keywords) (chunk tag d d' desc : string)
      (args : list string) :
  split_tag chunk = Ok (tag, d) ->
  tag_args tag d = Ok (args, d') ->
  clean_description d' = Ok desc ->
  interpret_chunk K chunk = _build_meta K args desc.
Proof.
  intros H1 H2 H3. unfold interpret_chunk. rewrite H1. simpl.
  rewrite H2. simpl. rewrite H3. reflexivity.
Qed.

(** A type token sets [type_name] and nothing else. *)
Lemma scan_type_token_plain (st : ParamLocals) (T : string) :
  plain_type T = true ->
  scan_param_token st ("{" ++ T ++ "}")
  = Ok {| v_type_name := Some T; v_arg_name := v_arg_name st;
          v_is_optional := v_is_optional st; v_default := v_default st |}.
Proof.
  intros HT. apply plain_type_inv in HT as (_ & HTn & HTc & HTe).
  unfold scan_param_token. simpl String.append.
  rewrite (search_span_app "{" "}" T "" HTc HTn), unwrap_braces, HTe.
  reflexivity.
Qed.

(** A plain name sets [arg_name] and nothing else. *)
Lemma scan_name_token_plain (st : ParamLocals) (name : string) :
  plain_name name = true ->
  scan_param_token st name
  = Ok {| v_type_name := v_type_name st; v_arg_name := Some name;
          v_is_optional := v_is_optional st; v_default := v_default st |}.
Proof.
  intros Hn. apply plain_name_inv in Hn as (_ & _ & Hno & Hnb).
  unfold scan_param_token.
  rewrite (search_span_absent _ _ _ Hno), (match_span_not_open _ _ _ Hnb).
  reflexivity.
Qed.

(** The param-class branch of [_build_meta] on three tokens. *)
Lemma build_meta_param (K : Keywords) (key a b desc : string) :
  key ∈ PARAM_KEYWORDS K ->
  _build_meta K [key; a; b] desc
  = st ← (st ← scan_param_token
                 {| v_type_name := None; v_arg_name := None;
                    v_is_optional := None; v_default := None |} a;
          scan_param_token st b);
    match v_arg_name st with
    | None => Raise UnboundLocalError
    | Some arg_name =>
        Ok (DocstringParam [key; a; b] desc arg_name (v_type_name st)
              (v_is_optional st) (v_default st))
    end.
Proof.
  intros HK. unfold _build_meta. rewrite bool_decide_true by exact HK.
  cbn [mbind Result_bind for_tokens].
  destruct (scan_param_token _ a) as [st|e]; cbn [mbind Result_bind]; [|reflexivity].
  destruct (scan_param_token st b); reflexivity.
Qed.

(** The param-class record of a type token and a plain name. *)
Lemma build_param_plain (K : Keywords) (T name desc : string) :
  "param" ∈ PARAM_KEYWORDS K ->
  plain_type T = true -> plain_name name = true ->
  _build_meta K ["param"; "{" ++ T ++ "}"; name] desc
  = Ok (DocstringParam ["param"; "{" ++ T ++ "}"; name] desc name (Some T) None None).
Proof.
  intros HK HT Hn. rewrite (build_meta_param K _ _ _ _ HK).
  rewrite (scan_type_token_plain _ T HT). cbn [mbind Result_bind].
  rewrite (scan_name_token_plain _ name Hn). reflexivity.
Qed.

End ParamChunk.

(** ** Param-class records (claims C1, C2, C3) *)

Section ParamClaims.
Import PyStr.

Ltac closed_chunk tag d desc args :=
  rewrite (interpret_chunk_eq _ _ tag d desc desc args)
    by (vm_compute; reflexivity).

(** C1 (the code departs from the claim): on [@param {T} [name=default] desc]
    the record is optional, but the brackets stay: [arg_name] is ["[name"]
    and [default] is ["default]"].  Lines 61-64 strip the brackets of
    [type_name], not those of [arg_name]. *)
Theorem param_bracket_name_keeps_brackets (K : Keywords) :
  "param" ∈ PARAM_KEYWORDS K ->
  interpret_chunk K "@param {T} [name=default] desc"
  = Ok (DocstringParam ["param"; "{T}"; "[name=default]"] "desc"
          "[name" (Some "T") (Some true) (Some "default]")).
Proof.
  intros HK.
  closed_chunk "param" "{T} [name=default] desc" "desc"
               ["param"; "{T}"; "[name=default]"].
  rewrite (build_meta_param K _ _ _ _ HK). vm_compute. reflexivity.
Qed.

Lemma param_bracket_name_keeps_brackets_witness :
  interpret_chunk spec_keywords "@param {T} [name=default] desc"
  = Ok (DocstringParam ["param"; "{T}"; "[name=default]"] "desc"
          "[name" (Some "T") (Some true) (Some "default]")).
Proof.
  apply (param_bracket_name_keeps_brackets spec_keywords).
  apply (bool_decide_unpack _). vm_compute. exact I.
Defined.

(** C2 (the code departs from the claim): a bracketed name that comes
    before any type span raises [AttributeError], since [type_name] is still
    [None] at line 61; two type spans and no name raise
    [UnboundLocalError], since [arg_name] was never assigned when line 75
    reads it.  Both chunks pass the arity check of the interpreter. *)
Theorem param_micro_syntax_raises (K : Keywords) :
  "param" ∈ PARAM_KEYWORDS K ->
  tag_args "param" "[x] y" = Ok (["param"; "[x]"; "y"], "")
  /\ interpret_chunk K "@param [x] y" = Raise AttributeError
  /\ tag_args "param" "{A} {B}" = Ok (["param"; "{A}"; "{B}"], "")
  /\ interpret_chunk K "@param {A} {B}" = Raise UnboundLocalError.
Proof.
  intros HK. repeat split; try (vm_compute; reflexivity).
  - closed_chunk "param" "[x] y" "" ["param"; "[x]"; "y"].
    rewrite (build_meta_param K _ _ _ _ HK). vm_compute. reflexivity.
  - closed_chunk "param" "{A} {B}" "" ["param"; "{A}"; "{B}"].
    rewrite (build_meta_param K _ _ _ _ HK). vm_compute. reflexivity.
Qed.

Lemma param_micro_syntax_raises_witness :
  interpret_chunk spec_keywords "@param [x] y" = Raise AttributeError
  /\ interpret_chunk spec_keywords "@param {A} {B}" = Raise UnboundLocalError.
Proof.
  assert (HK : "param" ∈ PARAM_KEYWORDS spec_keywords)
    by (apply (bool_decide_unpack _); vm_compute; exact I).
  split; apply (param_micro_syntax_raises spec_keywords HK).
Defined.

(** C3, as the claim states it, fails on [@param {T} name desc]: no record
    with [is_optional == False] is produced. *)
Lemma param_is_optional_not_False :
  ~ exists args description,
      interpret_chunk spec_keywords "@param {T} name desc"
      = Ok (DocstringParam args description "name" (Some "T") (Some false) None).
Proof.
  intros (args & description & H). vm_compute in H. discriminate H.
Qed.

(** C3 (amended): for every chunk [@param {T} name desc] with a plain type
    and a plain name, the record is param-class with [type_name == T],
    [arg_name == name], [default] [None], and [is_optional] [None]: the
    code never sets [is_optional] to [False]. *)
Theorem param_plain_record (K : Keywords) (T name desc : string) :
  "param" ∈ PARAM_KEYWORDS K ->
  plain_type T = true -> plain_name name = true ->
  exists description,
    interpret_chunk K ("@param {" ++ T ++ "} " ++ name ++ " " ++ desc)
    = Ok (DocstringParam ["param"; "{" ++ T ++ "}"; name] description
            name (Some T) None None).
Proof.
  intros HK HT Hn.
  destruct (plain_type_inv _ HT) as (HTs & _).
  destruct (plain_name_inv _ Hn) as (Hns & Hnn & _).
  destruct (clean_description_Ok
              (rstrip_by (fun c => contains c (String nl "")) desc))
    as [description Hd].
  exists description.
  rewrite (interpret_chunk_eq K _ "param"
             ("{" ++ T ++ "} " ++ name ++ " " ++ desc)
             (rstrip_by (fun c => contains c (String nl "")) desc) description
             ["param"; "{" ++ T ++ "}"; name]).
  - now apply build_param_plain.
  - apply (split_tag_space "param"). reflexivity.
  - rewrite (tag_args_param T name desc HTs Hns).
    now rewrite (strip_chars_absent _ _ Hnn).
  - exact Hd.
Qed.

Lemma param_plain_record_witness :
  exists description,
    interpret_chunk spec_keywords "@param {T} name desc"
    = Ok (DocstringParam ["param"; "{T}"; "name"] description
            "name" (Some "T") None None).
Proof.
  apply (param_plain_record spec_keywords "T" "name" "desc").
  - apply (bool_decide_unpack _). vm_compute. exact I.
  - reflexivity.
  - reflexivity.
Defined.

End ParamClaims.

(** ** Deprecation-class records (claim C5) *)

Section Deprecation.
Import PyStr.












End Deprecation.

(** ** The tag name and the rest (claim C6) *)

Section TagSplit.
Import PyStr.

(** C6, as the claim states it, fails when a newline follows the tag word.
    The text [@return], newline, [{T} desc] is one raw chunk; the claim
    gives the tag [return] and the rest [{T} desc], the interpreter the tag
    made of [return], the newline and [{T}], and the rest [desc]. *)
Lemma newline_does_not_end_tag :
  tag_chunks ("@return" ++ String nl "{T} desc")
  = ["@return" ++ String nl "{T} desc"]
  /\ claimed_split_tag ("@return" ++ String nl "{T} desc") = ("return", "{T} desc")
  /\ split_tag ("@return" ++ String nl "{T} desc")
     = Ok ("return" ++ String nl "{T}", "desc").
Proof. repeat split; vm_compute; reflexivity. Qed.

(** C6 (amended): the interpreter splits a raw chunk at its first space
    character (U+0020) only.  The text before it, with every leading and
    trailing [@] removed, is the tag and the text after it is the rest,
    other whitespace included; a chunk without a space is a bare tag with an
    empty rest. *)
Theorem split_tag_first_space (t : string) :
  (contains " " t = false ->
   split_tag (String "@" t) = Ok (strip_chars "@" (String "@" t), ""))
  /\ (forall a b, t = a ++ String " " b -> contains " " a = false ->
      split_tag (String "@" t) = Ok (strip_chars "@" (String "@" a), b)).
Proof.
  split.
  - apply split_tag_bare.
  - intros a b -> Ha. now apply split_tag_space.
Qed.

Lemma split_tag_first_space_witness :
  split_tag "@deprecated" = Ok ("deprecated", "")
  /\ split_tag "@param {T} name desc" = Ok ("param", "{T} name desc").
Proof.
  split.
  - apply (proj1 (split_tag_first_space "deprecated")). reflexivity.
  - apply (proj2 (split_tag_first_space "param {T} name desc")
             "param" "{T} name desc"); reflexivity.
Defined.

End TagSplit.

(** ** Tags without a parameter grammar (claims C7, C9) *)

Section TagGrammar.
Import PyStr.

(** The tag names the interpreter gives a grammar to contain no newline:
    stripping newlines leaves them as they are. *)
Lemma param_tags_strip (tag : string) :
  tag ∈ ["param"; "typedef"; "property"] -> strip_chars (String nl "") tag = tag.
Proof.
  rewrite !elem_of_cons, elem_of_nil.
  intros [->|[->|[->|[]]]]; reflexivity.
Qed.

Lemma return_tags_strip (tag : string) :
  tag ∈ ["return"; "throws"; "type"] -> strip_chars (String nl "") tag = tag.
Proof.
  rewrite !elem_of_cons, elem_of_nil.
  intros [->|[->|[->|[]]]]; reflexivity.
Qed.

Lemma return_tags_not_param (tag : string) :
  tag ∈ ["return"; "throws"; "type"] -> tag ∉ ["param"; "typedef"; "property"].
Proof.
  rewrite !elem_of_cons, !elem_of_nil.
  intros [->|[->|[->|[]]]] [H|[H|[H|[]]]]; discriminate H.
Qed.

(** A tag whose name, newlines stripped, is outside both lists gets the
    token set [[tag_name]] and keeps its whole rest as description. *)
Lemma tag_args_other (tag desc_chunk : string) :
  strip_chars (String nl "") tag ∉ ["param"; "typedef"; "property"] ->
  strip_chars (String nl "") tag ∉ ["return"; "throws"; "type"] ->
  tag_args tag desc_chunk = Ok ([strip_chars (String nl "") tag], desc_chunk).
Proof.
  intros H1 H2. unfold tag_args.
  rewrite bool_decide_false.
  - rewrite bool_decide_false; [reflexivity|].
    intros H. apply H2. now rewrite (return_tags_strip _ H).
  - intros H. apply H1. now rewrite (param_tags_strip _ H).
Qed.

(** C7: a chunk whose tag name is a yields keyword (and, the classes being
    disjoint, is no param keyword and none of the six names the interpreter
    gives a grammar to) produces a returns-class record with
    [is_generator == True] and [type_name == None]: its token set is
    [[tag_name]], so the type scan visits no token, whatever [{...}] span
    the chunk carries. *)
Theorem yield_record_has_no_type (K : Keywords) (chunk tag desc_chunk : string) :
  split_tag chunk = Ok (tag, desc_chunk) ->
  strip_chars (String nl "") tag ∈ YIELDS_KEYWORDS K ->
  strip_chars (String nl "") tag ∉ PARAM_KEYWORDS K ->
  strip_chars (String nl "") tag ∉ ["param"; "typedef"; "property"] ->
  strip_chars (String nl "") tag ∉ ["return"; "throws"; "type"] ->
  tag_args tag desc_chunk = Ok ([strip_chars (String nl "") tag], desc_chunk)
  /\ exists description,
      interpret_chunk K chunk
      = Ok (DocstringReturns [strip_chars (String nl "") tag] description None true).
Proof.
  intros Hs Hy Hp H1 H2.
  pose proof (tag_args_other tag desc_chunk H1 H2) as Ha.
  split; [exact Ha|].
  destruct (clean_description_Ok desc_chunk) as [description Hd].
  exists description.
  rewrite (interpret_chunk_eq K _ _ _ _ _ _ Hs Ha Hd).
  unfold _build_meta.
  rewrite (bool_decide_false _ Hp).
  rewrite bool_decide_true by (apply elem_of_union; now right).
  rewrite (bool_decide_true _ Hy). reflexivity.
Qed.

Lemma yield_record_has_no_type_witness :
  exists description,
    interpret_chunk spec_keywords "@yield {T} desc"
    = Ok (DocstringReturns ["yield"] description None true).
Proof.
  apply (yield_record_has_no_type spec_keywords "@yield {T} desc" "yield" "{T} desc").
  - reflexivity.
  - apply (bool_decide_unpack _). vm_compute. exact I.
  - apply (bool_decide_unpack _). vm_compute. exact I.
  - apply (bool_decide_unpack _). vm_compute. exact I.
  - apply (bool_decide_unpack _). vm_compute. exact I.
Defined.

(** No token raises a [ParseError] in the param-class scan. *)
Lemma scan_param_token_no_ParseError (st : ParamLocals) (name msg : string) :
  scan_param_token st name <> Raise (ParseError msg).
Proof.
  unfold scan_param_token.
  destruct (Re.search_span "{" "}" name) as [m|].
  { destruct (endswith "=" _); discriminate. }
  destruct (Re.match_span "[" "]" name) as [m|]; [|discriminate].
  destruct (v_type_name st); [|discriminate].
  destruct (contains "=" m); [|discriminate].
  destruct (split_all "=" m) as [|a [|d [|? ?]]]; discriminate.
Qed.

Lemma for_tokens_no_ParseError {S A} (body : S -> A -> Result S) (l : list A) :
  (forall st x msg, body st x <> Raise (ParseError msg)) ->
  forall st msg, for_tokens body st l <> Raise (ParseError msg).
Proof.
  intros Hb. induction l as [|x l IH]; intros st msg; simpl; [discriminate|].
  destruct (body st x) as [st'|e] eqn:E; simpl.
  - apply IH.
  - intros [= ->]. exact (Hb _ _ _ E).
Qed.

(** With two tokens, [_build_meta] raises no [ParseError]: two arguments
    are an accepted count in the param class, and no other class counts. *)
Lemma build_meta_two_tokens (K : Keywords) (key a desc msg : string) :
  _build_meta K [key; a] desc <> Raise (ParseError msg).
Proof.
  unfold _build_meta.
  destruct (bool_decide (key ∈ PARAM_KEYWORDS K)).
  { cbn [mbind Result_bind].
    pose proof (for_tokens_no_ParseError scan_param_token (chars a)
                  scan_param_token_no_ParseError
                  {| v_type_name := None; v_arg_name := None;
                     v_is_optional := None; v_default := None |} msg) as H.
    destruct (for_tokens scan_param_token _ (chars a)) as [st|e]; simpl.
    - destruct (v_arg_name st); discriminate.
    - congruence. }
  destruct (bool_decide (key ∈ RETURNS_KEYWORDS K ∪ YIELDS_KEYWORDS K)).
  { simpl. unfold scan_type_token.
    destruct (Re.match_span "{" "}" a); discriminate. }
  destruct (bool_decide (key ∈ DEPRECATION_KEYWORDS K)).
  { destruct (Re.match_version desc) as [[v d]|]; discriminate. }
  destruct (bool_decide (key ∈ RAISES_KEYWORDS K)); [|discriminate].
  simpl. unfold scan_type_token.
  destruct (Re.match_span "{" "}" a); discriminate.
Qed.

(** C9: for a chunk whose tag is [return], [throws] or [type], the split
    of line 206 has two fields or one, the interpreter returns the token set
    [[tag, args_chunk]] (the branch of line 213 is not taken), and the chunk
    raises no [ParseError], under any keyword table. *)
Theorem return_tags_never_arity_error (K : Keywords) (chunk tag desc_chunk : string) :
  split_tag chunk = Ok (tag, desc_chunk) ->
  tag ∈ ["return"; "throws"; "type"] ->
  (exists args_chunk description,
      (split " " 1 (lstrip desc_chunk) = [args_chunk; description]
       \/ split " " 1 (lstrip desc_chunk) = [args_chunk] /\ description = "")
      /\ tag_args tag desc_chunk = Ok ([tag; args_chunk], description))
  /\ forall msg, interpret_chunk K chunk <> Raise (ParseError msg).
Proof.
  intros Hs Ht.
  assert (Hargs : exists args_chunk description,
             (split " " 1 (lstrip desc_chunk) = [args_chunk; description]
              \/ split " " 1 (lstrip desc_chunk) = [args_chunk] /\ description = "")
             /\ tag_args tag desc_chunk = Ok ([tag; args_chunk], description)).
  { unfold tag_args.
    rewrite (bool_decide_false _ (return_tags_not_param _ Ht)).
    rewrite (bool_decide_true _ Ht).
    pose proof (split_length " " 1 (lstrip desc_chunk)) as Hl.
    destruct (split " " 1 (lstrip desc_chunk)) as [|a [|d [|? ?]]];
      simpl in Hl; try lia.
    - exists a, "". split; [right|]; auto.
    - exists a, d. split; [left|]; auto. }
  split; [exact Hargs|].
  destruct Hargs as (args_chunk & d & _ & Ha). intros msg.
  destruct (clean_description_Ok d) as [description Hd].
  rewrite (interpret_chunk_eq K _ _ _ _ _ _ Hs Ha Hd).
  apply build_meta_two_tokens.
Qed.

Lemma return_tags_never_arity_error_witness :
  exists args_chunk description,
    (split " " 1 (lstrip "{T} desc") = [args_chunk; description]
     \/ split " " 1 (lstrip "{T} desc") = [args_chunk] /\ description = "")
    /\ tag_args "return" "{T} desc" = Ok (["return"; args_chunk], description).
Proof.
  apply (return_tags_never_arity_error spec_keywords "@return {T} desc"
           "return" "{T} desc").
  - reflexivity.
  - apply (bool_decide_unpack _). vm_compute. exact I.
Defined.

End TagGrammar.

(** ** The run of [parse] *)

Section ParseRun.
Import PyStr.
Context (K : Keywords).

Lemma meta_with_metas (ms : list DocstringMeta) (d : Docstring) :
  meta (with_metas ms d) = (meta d ++ ms)%list.
Proof.
  revert d. induction ms as [|m ms IH]; intros d; simpl.
  - now rewrite app_nil_r.
  - rewrite IH. simpl. now rewrite <- app_assoc.
Qed.

Lemma meta_with_descriptions (desc_chunk : string) (d : Docstring) :
  meta (with_descriptions desc_chunk d) = meta d.
Proof.
  unfold with_descriptions.
  destruct (split nl 1 desc_chunk) as [|? [|? ?]]; reflexivity.
Qed.

Lemma update_run (l : nat) (f : Docstring -> Docstring) (σ : store) (d : Docstring) :
  σ !! l = Some d -> update l f σ = (Ok tt, <[l := f d]> σ).
Proof.
  intros H. unfold update. f_equal.
  apply map_eq. intros i. destruct (decide (l = i)) as [<-|Hne].
  - now rewrite lookup_alter_eq, lookup_insert_eq, H.
  - now rewrite lookup_alter_ne, lookup_insert_ne.
Qed.

Lemma assign_descriptions_run (l : nat) (desc_chunk : string) (σ : store)
      (d : Docstring) :
  σ !! l = Some d ->
  assign_descriptions l desc_chunk σ
  = (Ok tt, <[l := with_descriptions desc_chunk d]> σ).
Proof.
  intros H. unfold assign_descriptions, with_descriptions.
  pose proof (split_length nl 1 desc_chunk) as Hl.
  destruct (split nl 1 desc_chunk) as [|part0 [|part1 rest]]; simpl in Hl; [lia| |].
  - unfold mbind, M_bind. rewrite (update_run _ _ _ _ H). reflexivity.
  - unfold mbind, M_bind.
    rewrite (update_run _ _ _ _ H).
    rewrite (update_run l _ _ _ (lookup_insert_eq _ _ _)), insert_insert_eq.
    rewrite (update_run l _ _ _ (lookup_insert_eq _ _ _)), insert_insert_eq.
    rewrite (update_run l _ _ _ (lookup_insert_eq _ _ _)), insert_insert_eq.
    reflexivity.
Qed.

(** The loop of lines 171-226 on the object at [l]: it appends the records
    in order and stops at the first exception; it writes at [l] only. *)
Lemma loop_run (l : nat) (chunks : list string) (σ : store) (d : Docstring) :
  σ !! l = Some d ->
  exists d',
    for_each (fun chunk => m ← lift (interpret_chunk K chunk);
                           update l (meta_append m)) chunks σ
    = ((fun _ => tt) <$> interpret_all K chunks, <[l := d']> σ)
    /\ forall ms, interpret_all K chunks = Ok ms -> d' = with_metas ms d.
Proof.
  set (body := fun chunk => m ← lift (interpret_chunk K chunk);
                            update l (meta_append m)).
  assert (Hbody : forall chunk σ,
             body chunk σ = match interpret_chunk K chunk with
                            | Ok m => update l (meta_append m) σ
                            | Raise e => (Raise e, σ)
                            end).
  { intros chunk σ0. unfold body, mbind, M_bind, lift.
    destruct (interpret_chunk K chunk); reflexivity. }
  assert (Hstep : forall chunk chunks σ,
             for_each body (chunk :: chunks) σ
             = match body chunk σ with
               | (Ok _, σ') => for_each body chunks σ'
               | (Raise e, σ') => (Raise e, σ')
               end) by reflexivity.
  clearbody body.
  revert σ d. induction chunks as [|chunk chunks IH]; intros σ d H.
  - exists d. split.
    + change (for_each body [] σ) with (Ok tt, σ).
      now rewrite (insert_id _ _ _ H).
    + now intros ms [= <-].
  - rewrite Hstep, Hbody. cbn [interpret_all].
    destruct (interpret_chunk K chunk) as [m|e]; cbn [mbind Result_bind].
    + rewrite (update_run _ _ _ _ H).
      destruct (IH (<[l := meta_append m d]> σ) (meta_append m d)
                  (lookup_insert_eq _ _ _)) as (d' & Hrun & Hd').
      exists d'. rewrite Hrun, insert_insert_eq. split.
      * destruct (interpret_all K chunks); reflexivity.
      * intros ms Hms.
        destruct (interpret_all K chunks) as [ms'|]; [|discriminate].
        injection Hms as <-. now rewrite (Hd' ms' eq_refl).
    + exists d. split; [|discriminate].
      now rewrite (insert_id _ _ _ H).
Qed.

(** A call of [parse] makes one object, at an address that was free,
    returns it unless a chunk raises, and writes nowhere else. *)
Lemma parse_run (text : string) (σ : store) :
  exists d',
    parse K text σ
    = ((fun _ => fresh (dom σ)) <$> interpret_all K (tag_chunks text),
       <[fresh (dom σ) := d']> σ)
    /\ forall ms, interpret_all K (tag_chunks text) = Ok ms -> d' = parsed text ms.
Proof.
  unfold parse, tag_chunks, parsed.
  destruct (Re.split_at_tag true (PyInspect.cleandoc text)) as [desc_chunk meta_chunk].
  cbn [fst snd].
  set (l := fresh (dom σ)).
  set (d0 := with_descriptions desc_chunk (Docstring_init REST)).
  destruct (loop_run l (Re.finditer_tags meta_chunk) (<[l := d0]> σ) d0
              (lookup_insert_eq _ _ _)) as (d' & Hrun & Hd').
  exists d'. split; [|exact Hd'].
  unfold mbind, M_bind, new_Docstring in Hrun |- *. fold l.
  rewrite (assign_descriptions_run l desc_chunk
             (<[l := Docstring_init REST]> σ) _ (lookup_insert_eq _ _ _)).
  rewrite insert_insert_eq. fold d0. rewrite Hrun, insert_insert_eq.
  destruct (interpret_all K (Re.finditer_tags meta_chunk)); reflexivity.
Qed.

(** The outcome of a call does not depend on the store it is made in. *)
Lemma parse_outcome_eq (text : string) (σ : store) :
  parse_outcome K σ text
  = (fun ms => Some (parsed text ms)) <$> interpret_all K (tag_chunks text).
Proof.
  unfold parse_outcome. destruct (parse_run text σ) as (d' & -> & Hd').
  destruct (interpret_all K (tag_chunks text)) as [ms|e]; simpl; [|reflexivity].
  now rewrite lookup_insert_eq, (Hd' ms eq_refl).
Qed.

End ParseRun.

(** ** The segmenter *)

Section Segmenter.
Import PyStr.

Lemma split_at_tag_app (bol : bool) (s : string) :
  fst (Re.split_at_tag bol s) ++ snd (Re.split_at_tag bol s) = s.
Proof.
  revert bol. induction s as [|c s IH]; intros bol; simpl; [reflexivity|].
  destruct (bol && Ascii.eqb c "@"); [reflexivity|].
  specialize (IH (Ascii.eqb c nl)).
  destruct (Re.split_at_tag (Ascii.eqb c nl) s) as [a b]. simpl in *.
  now rewrite IH.
Qed.

(** The meta chunk is empty or starts with the [@] of a tag, and holds
    every tag of the text. *)
Lemma split_at_tag_meta (bol : bool) (s : string) :
  (snd (Re.split_at_tag bol s) = ""
   \/ exists r, snd (Re.split_at_tag bol s) = String "@" r)
  /\ count_tags true (snd (Re.split_at_tag bol s)) = count_tags bol s.
Proof.
  revert bol. induction s as [|c s IH]; intros bol; simpl; [auto|].
  destruct (bol && Ascii.eqb c "@") eqn:E.
  - apply andb_true_iff in E as [-> E]. pose proof E as E'.
    apply Ascii.eqb_eq in E as ->. simpl. split; [right; eauto | reflexivity].
  - specialize (IH (Ascii.eqb c nl)).
    destruct (Re.split_at_tag (Ascii.eqb c nl) s) as [a b]. simpl in *. exact IH.
Qed.

Lemma tag_spans_concat (bol : bool) (s : string) :
  fst (Re.tag_spans bol s) ++ String.concat "" (snd (Re.tag_spans bol s)) = s.
Proof.
  revert bol. induction s as [|c s IH]; intros bol; simpl; [reflexivity|].
  specialize (IH (Ascii.eqb c nl)).
  destruct (Re.tag_spans (Ascii.eqb c nl) s) as [cur more]. simpl in IH.
  destruct (bol && Ascii.eqb c "@"); simpl.
  - destruct more as [|m more]; simpl in *; now rewrite ?append_nil_r in *; rewrite IH.
  - now rewrite IH.
Qed.

Lemma tag_spans_start (bol : bool) (s : string) :
  Forall (fun chunk => startswith "@" chunk = true) (snd (Re.tag_spans bol s)).
Proof.
  revert bol. induction s as [|c s IH]; intros bol; simpl; [constructor|].
  specialize (IH (Ascii.eqb c nl)).
  destruct (Re.tag_spans (Ascii.eqb c nl) s) as [cur more]. simpl in IH.
  destruct (bol && Ascii.eqb c "@") eqn:E; simpl; [|exact IH].
  constructor; [|exact IH].
  apply andb_true_iff in E as [_ E]. simpl. now rewrite E.
Qed.

Lemma tag_spans_count (bol : bool) (s : string) :
  length (snd (Re.tag_spans bol s)) = count_tags bol s.
Proof.
  revert bol. induction s as [|c s IH]; intros bol; simpl; [reflexivity|].
  specialize (IH (Ascii.eqb c nl)).
  destruct (Re.tag_spans (Ascii.eqb c nl) s) as [cur more]. simpl in IH.
  destruct (bol && Ascii.eqb c "@"); simpl; now rewrite IH.
Qed.

Lemma tag_spans_at_tag (r : string) : fst (Re.tag_spans true (String "@" r)) = "".
Proof. simpl. destruct (Re.tag_spans false r). reflexivity. Qed.

(** The chunks are the consecutive pieces of the cleaned text from its
    first tag on, one piece per tag. *)
Lemma tag_chunks_partition (text : string) :
  fst (Re.split_at_tag true (PyInspect.cleandoc text))
    ++ String.concat "" (tag_chunks text) = PyInspect.cleandoc text
  /\ Forall (fun chunk => startswith "@" chunk = true) (tag_chunks text)
  /\ length (tag_chunks text) = count_tags true (PyInspect.cleandoc text).
Proof.
  unfold tag_chunks, Re.finditer_tags.
  set (t := PyInspect.cleandoc text).
  pose proof (split_at_tag_app true t) as Happ.
  destruct (split_at_tag_meta true t) as [Hhead Hcount].
  pose proof (tag_spans_concat true (snd (Re.split_at_tag true t))) as Hcat.
  repeat split.
  - rewrite <- Happ at 3. f_equal. rewrite <- Hcat at 2.
    destruct Hhead as [->|[r ->]]; [reflexivity|].
    now rewrite tag_spans_at_tag.
  - apply tag_spans_start.
  - now rewrite tag_spans_count.
Qed.

End Segmenter.

(** ** The result of [parse] (claims C4, C8, C10) *)

Section ParseClaims.
Import PyStr.

Lemma interpret_all_Forall2 (K : Keywords) (chunks : list string)
      (ms : list DocstringMeta) :
  interpret_all K chunks = Ok ms ->
  Forall2 (fun chunk m => interpret_chunk K chunk = Ok m) chunks ms.
Proof.
  revert ms. induction chunks as [|chunk chunks IH]; intros ms; simpl.
  - intros [= <-]. constructor.
  - destruct (interpret_chunk K chunk) as [m|e] eqn:E; simpl; [|discriminate].
    destruct (interpret_all K chunks) as [ms'|e]; simpl; [|discriminate].
    intros [= <-]. constructor; auto.
Qed.

(** The first chunk that raises decides the outcome. *)
Lemma interpret_all_raise (K : Keywords) (chunks : list string) (i : nat)
      (chunk : string) (e : Exception) :
  chunks !! i = Some chunk ->
  interpret_chunk K chunk = Raise e ->
  (exists e', interpret_all K chunks = Raise e')
  /\ ((forall j c, j < i -> chunks !! j = Some c ->
                   is_Ok (interpret_chunk K c) = true) ->
      interpret_all K chunks = Raise e).
Proof.
  revert i. induction chunks as [|c chunks IH]; intros i Hi He; [discriminate|].
  destruct i as [|i]; simpl in Hi |- *.
  - injection Hi as ->. rewrite He. simpl. eauto.
  - destruct (IH i Hi He) as [[e' He'] Hfirst].
    destruct (interpret_chunk K c) as [m|e0] eqn:E; simpl.
    + rewrite He'. simpl. split; [eauto|].
      intros Hbefore. rewrite Hfirst in He'.
      * now rewrite He'.
      * intros j c' Hj Hc'. apply (Hbefore (S j) c'); [lia | exact Hc'].
    + split; [eauto|]. intros Hbefore.
      specialize (Hbefore 0 c ltac:(lia) eq_refl). rewrite E in Hbefore.
      discriminate Hbefore.
Qed.

(** C4, as the claim states it, fails on [@param x] followed by a space:
    the chunk has the tag [param] and a rest with one whitespace-separated
    field, and the parse returns a result.  The interpreter splits on
    single spaces: the rest has the two fields [x] and the empty string. *)
Lemma trailing_space_is_a_field :
  tag_chunks "@param x " = ["@param x "]
  /\ split_tag "@param x " = Ok ("param", "x ")
  /\ whitespace_fields "x " = ["x"]
  /\ parse_outcome spec_keywords ∅ "@param x "
     = Ok (Some {| style := REST;
                   short_description := None;
                   long_description := None;
                   blank_after_short_description := false;
                   blank_after_long_description := false;
                   meta := [DocstringParam ["param"; "x"; ""] "" "" None None None] |}).
Proof. repeat split; vm_compute; reflexivity. Qed.

(** A tag word that a newline follows keeps the newline in its tag, so the
    test of line 191 fails for it; the token set is the tag name alone. *)
Lemma tag_args_newline_tag (tag desc_chunk : string) :
  tag ∉ ["param"; "typedef"; "property"] ->
  strip_chars (String nl "") tag ∈ ["param"; "typedef"; "property"] ->
  tag_args tag desc_chunk = Ok ([strip_chars (String nl "") tag], desc_chunk).
Proof.
  intros Ht Hkey. unfold tag_args. rewrite (bool_decide_false _ Ht).
  rewrite bool_decide_false; [reflexivity|].
  intros Hr. rewrite (return_tags_strip _ Hr) in Hkey. contradiction.
Qed.

(** Outside the param class such a bare tag raises nothing: under a keyword
    table without [typedef], a [@typedef] that a newline follows gives a
    generic record. *)
Example bare_typedef_outside_param_class :
  interpret_chunk
    {| PARAM_KEYWORDS := {[ "param" ]}; RAISES_KEYWORDS := ∅;
       DEPRECATION_KEYWORDS := ∅; RETURNS_KEYWORDS := ∅; YIELDS_KEYWORDS := ∅ |}
    ("@typedef" ++ String nl "")
  = Ok (DocstringMeta_ ["typedef"] "").
Proof. vm_compute. reflexivity. Qed.

(** C4 (amended): a chunk of the text whose tag name is [param], [typedef]
    or [property] raises an arity [ParseError] that names the tag in two
    cases.  Either the tag word ends the chunk or a space follows it, and
    the rest, stripped as the interpreter strips it, holds no space
    character (a bare [@param] on the last line, [@param x]): the
    interpreter raises, with the tag between quotes.  Or a newline follows
    the tag word (a bare [@param] on a line of its own, before other lines)
    and the tag name is a param keyword: the token set is the tag name
    alone and [_build_meta] raises, with the tag unquoted.  In both cases
    the call returns no [Docstring]: it raises, and it raises that very
    error when no earlier chunk of the text raises. *)
Theorem single_field_param_raises (K : Keywords) (text : string) (i : nat)
        (chunk tag desc_chunk msg : string) :
  tag_chunks text !! i = Some chunk ->
  split_tag chunk = Ok (tag, desc_chunk) ->
  ((tag ∈ ["param"; "typedef"; "property"])
   /\ contains " " (strip_chars (String nl "") (lstrip desc_chunk)) = false
   /\ msg = arity_message tag)
  \/ ((tag ∉ ["param"; "typedef"; "property"])
      /\ (strip_chars (String nl "") tag ∈ ["param"; "typedef"; "property"])
      /\ (strip_chars (String nl "") tag ∈ PARAM_KEYWORDS K)
      /\ msg = ("Expected two or three arguments for a "
                  ++ strip_chars (String nl "") tag ++ " keyword.")) ->
  interpret_chunk K chunk = Raise (ParseError msg)
  /\ (forall σ, exists e, parse_outcome K σ text = Raise e)
  /\ ((forall j c, j < i -> tag_chunks text !! j = Some c ->
                   is_Ok (interpret_chunk K c) = true) ->
      forall σ, parse_outcome K σ text = Raise (ParseError msg)).
Proof.
  intros Hi Hs Hcase.
  assert (He : interpret_chunk K chunk = Raise (ParseError msg)).
  { destruct Hcase as [(Ht & Hone & ->)|(Ht & Hkey & HK & ->)].
    - unfold interpret_chunk. rewrite Hs. cbn [mbind Result_bind].
      unfold tag_args. rewrite (bool_decide_true _ Ht).
      rewrite (split_no_sep _ _ _ Hone). reflexivity.
    - destruct (clean_description_Ok desc_chunk) as [description Hd].
      rewrite (interpret_chunk_eq K _ _ _ _ _ _ Hs
                 (tag_args_newline_tag tag desc_chunk Ht Hkey) Hd).
      unfold _build_meta. now rewrite (bool_decide_true _ HK). }
  destruct (interpret_all_raise K _ _ _ _ Hi He) as [[e' He'] Hfirst].
  repeat split.
  - exact He.
  - intros σ. exists e'. now rewrite parse_outcome_eq, He'.
  - intros Hbefore σ. now rewrite parse_outcome_eq, (Hfirst Hbefore).
Qed.

Lemma single_field_param_raises_witness :
  (interpret_chunk spec_keywords "@param" = Raise (ParseError (arity_message "param"))
   /\ exists e, parse_outcome spec_keywords ∅ "@param" = Raise e)
  /\ interpret_chunk spec_keywords ("@param" ++ String nl "")
     = Raise (ParseError "Expected two or three arguments for a param keyword.")
  /\ parse_outcome spec_keywords ∅ ("@param" ++ String nl "@return {T} x")
     = Raise (ParseError "Expected two or three arguments for a param keyword.").
Proof.
  assert (HK : "param" ∈ PARAM_KEYWORDS spec_keywords)
    by (apply (bool_decide_unpack _); vm_compute; exact I).
  assert (H3 : "param" ∈ ["param"; "typedef"; "property"])
    by (apply (bool_decide_unpack _); vm_compute; exact I).
  assert (Hn : "param" ++ String nl "" ∉ ["param"; "typedef"; "property"])
    by (apply (bool_decide_unpack _); vm_compute; exact I).
  split; [|split].
  - destruct (single_field_param_raises spec_keywords "@param" 0 "@param" "param" ""
                (arity_message "param")) as (H1 & H2 & _).
    + reflexivity.
    + reflexivity.
    + left. split; [exact H3 | split; reflexivity].
    + split; [exact H1 | exact (H2 ∅)].
  - apply (single_field_param_raises spec_keywords
             ("@param" ++ String nl "@return {T} x") 0
             ("@param" ++ String nl "") ("param" ++ String nl "") "").
    + reflexivity.
    + reflexivity.
    + right. split; [exact Hn | split; [exact H3 | split; [exact HK | reflexivity]]].
  - apply (single_field_param_raises spec_keywords
             ("@param" ++ String nl "@return {T} x") 0
             ("@param" ++ String nl "") ("param" ++ String nl "") "").
    + reflexivity.
    + reflexivity.
    + right. split; [exact Hn | split; [exact H3 | split; [exact HK | reflexivity]]].
    + intros j c Hj. lia.
Defined.

(** C8: when the parse succeeds, the chunks are the consecutive pieces of
    the cleaned text from its first tag on, one per [@] that begins a line,
    and the [meta] sequence holds, position by position, the record of each
    chunk: the records stand in the order of their tags, whatever their
    classes. *)
Theorem meta_in_source_order (K : Keywords) (σ : store) (text : string)
        (d : Docstring) :
  parse_outcome K σ text = Ok (Some d) ->
  fst (Re.split_at_tag true (PyInspect.cleandoc text))
    ++ String.concat "" (tag_chunks text) = PyInspect.cleandoc text
  /\ Forall (fun chunk => startswith "@" chunk = true) (tag_chunks text)
  /\ length (meta d) = count_tags true (PyInspect.cleandoc text)
  /\ Forall2 (fun chunk m => interpret_chunk K chunk = Ok m)
       (tag_chunks text) (meta d).
Proof.
  rewrite parse_outcome_eq.
  destruct (interpret_all K (tag_chunks text)) as [ms|e] eqn:E; [|discriminate].
  simpl. intros [= <-].
  assert (Hmeta : meta (parsed text ms) = ms).
  { unfold parsed. now rewrite meta_with_metas, meta_with_descriptions. }
  destruct (tag_chunks_partition text) as (Hcat & Hstart & Hlen).
  pose proof (interpret_all_Forall2 K _ _ E) as HF.
  rewrite Hmeta. repeat split; try assumption.
  rewrite <- Hlen. symmetry. exact (Forall2_length _ _ _ HF).
Qed.

Lemma meta_in_source_order_witness :
  exists d,
    parse_outcome spec_keywords ∅ mixed_tags = Ok (Some d)
    /\ map meta_args (meta d)
       = [["param"; "{T}"; "a"]; ["return"; "{U}"]; ["param"; "{V}"; "b"]]
    /\ Forall2 (fun chunk m => interpret_chunk spec_keywords chunk = Ok m)
         (tag_chunks mixed_tags) (meta d).
Proof.
  eexists. split; [vm_compute; reflexivity|].
  split; [reflexivity|].
  apply (meta_in_source_order spec_keywords ∅ mixed_tags).
  vm_compute. reflexivity.
Defined.

(** C10: the outcome of [parse] on a text is the same in every store; a
    second call on the same text, made in the store the first call left,
    returns a structurally equal object (or raises the same exception), at
    another address; it leaves the object of the first call and every
    object that existed before as they were. *)
Theorem parse_deterministic (K : Keywords) (text : string) (σ σ' : store) :
  parse_outcome K σ text = parse_outcome K σ' text
  /\ (let '(r1, σ1) := parse K text σ in
      let '(r2, σ2) := parse K text σ1 in
      (fun l => σ1 !! l) <$> r1 = (fun l => σ2 !! l) <$> r2
      /\ (fun l => σ2 !! l) <$> r1 = (fun l => σ1 !! l) <$> r1
      /\ (forall l1 l2, r1 = Ok l1 -> r2 = Ok l2 -> l1 <> l2)
      /\ forall l, is_Some (σ !! l) -> σ2 !! l = σ !! l).
Proof.
  split; [now rewrite !parse_outcome_eq|].
  pose proof (parse_outcome_eq K text σ) as H1. unfold parse_outcome in H1.
  destruct (parse_run K text σ) as (d1 & E1 & _). rewrite E1 in H1 |- *.
  set (l1 := fresh (dom σ)) in *. set (σ1 := <[l1 := d1]> σ) in *.
  pose proof (parse_outcome_eq K text σ1) as H2. unfold parse_outcome in H2.
  destruct (parse_run K text σ1) as (d2 & E2 & _). rewrite E2 in H2 |- *.
  set (l2 := fresh (dom σ1)) in *.
  assert (Hl1 : σ !! l1 = None) by (apply not_elem_of_dom, is_fresh).
  assert (Hl2 : σ1 !! l2 = None) by (apply not_elem_of_dom, is_fresh).
  assert (Hne : l1 <> l2).
  { intros Heq. rewrite <- Heq in Hl2. unfold σ1 in Hl2.
    rewrite lookup_insert_eq in Hl2. discriminate Hl2. }
  repeat split.
  - now rewrite H1, H2.
  - destruct (interpret_all K (tag_chunks text)); simpl; [|reflexivity].
    f_equal. rewrite lookup_insert_ne by congruence. reflexivity.
  - intros a b Ha Hb.
    destruct (interpret_all K (tag_chunks text)); simpl in Ha, Hb; [|discriminate].
    congruence.
  - intros l [x Hx].
    assert (l <> l1) by congruence.
    assert (σ1 !! l = σ !! l) as Hσ1 by (unfold σ1; now rewrite lookup_insert_ne).
    assert (l <> l2) by congruence.
    now rewrite lookup_insert_ne.
Qed.

End ParseClaims.

(** * Further properties of the module *)

(** ** How [parse] fails and succeeds *)

Section ParseOutcome.
Import PyStr.

Lemma interpret_all_raise_inv (K : Keywords) (chunks : list string) (e : Exception) :
  interpret_all K chunks = Raise e ->
  exists i chunk,
    chunks !! i = Some chunk /\ interpret_chunk K chunk = Raise e
    /\ forall j c, j < i -> chunks !! j = Some c ->
                   is_Ok (interpret_chunk K c) = true.
Proof.
  induction chunks as [|c chunks IH]; simpl; [discriminate|].
  destruct (interpret_chunk K c) as [m|e0] eqn:E; simpl.
  - destruct (interpret_all K chunks) as [ms|e1]; simpl; [discriminate|].
    intros [= ->]. destruct (IH eq_refl) as (i & chunk & Hi & He & Hb).
    exists (S i), chunk. repeat split; auto.
    intros [|j] c' Hj Hc'; simpl in Hc'.
    + injection Hc' as <-. now rewrite E.
    + apply (Hb j c'); [lia | exact Hc'].
  - intros [= ->]. exists 0, c. repeat split; auto. intros j c' Hj. lia.
Qed.

Lemma interpret_all_Ok (K : Keywords) (chunks : list string) :
  (forall chunk, chunk ∈ chunks -> is_Ok (interpret_chunk K chunk) = true) ->
  exists ms, interpret_all K chunks = Ok ms.
Proof.
  induction chunks as [|c chunks IH]; intros H; simpl; [eauto|].
  pose proof (H c (list_elem_of_here _ _)) as Hc.
  destruct (interpret_chunk K c) as [m|e]; [|discriminate Hc]. simpl.
  destruct IH as [ms ->]; [|simpl; eauto].
  intros chunk Hin. apply H. now apply list_elem_of_further.
Qed.

(** The exception of a call of [parse] is the exception of the first chunk
    whose interpretation raises: the segmenter and the assignments of the
    descriptions raise nothing, and no chunk after a failing one is
    looked at. *)
Theorem parse_raises_first_chunk_error (K : Keywords) (σ : store) (text : string)
        (e : Exception) :
  parse_outcome K σ text = Raise e <->
  exists i chunk,
    tag_chunks text !! i = Some chunk /\ interpret_chunk K chunk = Raise e
    /\ forall j c, j < i -> tag_chunks text !! j = Some c ->
                   is_Ok (interpret_chunk K c) = true.
Proof.
  rewrite parse_outcome_eq. split.
  - destruct (interpret_all K (tag_chunks text)) as [ms|e'] eqn:E; [discriminate|].
    simpl. intros [= ->]. now apply interpret_all_raise_inv.
  - intros (i & chunk & Hi & He & Hb).
    destruct (interpret_all_raise K _ _ _ _ Hi He) as [_ Hfirst].
    now rewrite (Hfirst Hb).
Qed.

(** When every chunk of a text is interpreted without an exception, the
    call returns an object with one record per chunk. *)
Theorem parse_succeeds_when_chunks_do (K : Keywords) (σ : store) (text : string) :
  (forall chunk, chunk ∈ tag_chunks text ->
                 is_Ok (interpret_chunk K chunk) = true) ->
  exists d, parse_outcome K σ text = Ok (Some d)
            /\ length (meta d) = length (tag_chunks text).
Proof.
  intros H. destruct (interpret_all_Ok K _ H) as [ms Hms].
  exists (parsed text ms). rewrite parse_outcome_eq, Hms. split; [reflexivity|].
  unfold parsed. rewrite meta_with_metas, meta_with_descriptions. simpl.
  symmetry. exact (Forall2_length _ _ _ (interpret_all_Forall2 K _ _ Hms)).
Qed.

Lemma parse_succeeds_when_chunks_do_witness :
  exists d, parse_outcome spec_keywords ∅ mixed_tags = Ok (Some d)
            /\ length (meta d) = length (tag_chunks mixed_tags).
Proof.
  apply (parse_succeeds_when_chunks_do spec_keywords ∅ mixed_tags).
  intros chunk Hin.
  replace (tag_chunks mixed_tags)
    with ["@param {T} a first" ++ String nl "";
          "@return {U} second" ++ String nl ""; "@param {V} b third"]
    in Hin by (vm_compute; reflexivity).
  rewrite !elem_of_cons, elem_of_nil in Hin.
  destruct Hin as [->|[->|[->|[]]]]; vm_compute; reflexivity.
Defined.

End ParseOutcome.

(** ** The description and the chunks of a text *)

Section Descriptions.
Import PyStr.

Lemma count_tags_zero (bol : bool) (s : string) :
  count_tags bol s = 0 -> Re.split_at_tag bol s = (s, "").
Proof.
  revert bol. induction s as [|c s IH]; intros bol; simpl; [reflexivity|].
  destruct (bol && Ascii.eqb c "@"); [discriminate|]. simpl. intros H.
  now rewrite (IH _ H).
Qed.

(** Each chunk holds the [@] it starts with and no other [@] that begins a
    line; what precedes the first chunk holds none. *)
Lemma tag_spans_one_tag (bol : bool) (s : string) :
  count_tags bol (fst (Re.tag_spans bol s)) = 0
  /\ Forall (fun chunk => count_tags true chunk = 1) (snd (Re.tag_spans bol s)).
Proof.
  revert bol. induction s as [|c s IH]; intros bol; simpl; [auto|].
  destruct (IH (Ascii.eqb c nl)) as [Hcur Hmore].
  destruct (Re.tag_spans (Ascii.eqb c nl) s) as [cur more]. simpl in Hcur, Hmore.
  destruct (bol && Ascii.eqb c "@") eqn:E; simpl.
  - split; [reflexivity|]. constructor; [|exact Hmore].
    apply andb_true_iff in E as [_ E]. simpl. rewrite E. simpl.
    now rewrite Hcur.
  - rewrite E. simpl. auto.
Qed.

Lemma split_at_tag_no_tag (bol : bool) (s : string) :
  count_tags bol (fst (Re.split_at_tag bol s)) = 0.
Proof.
  revert bol. induction s as [|c s IH]; intros bol; simpl; [reflexivity|].
  destruct (bol && Ascii.eqb c "@") eqn:E; [reflexivity|].
  specialize (IH (Ascii.eqb c nl)).
  destruct (Re.split_at_tag (Ascii.eqb c nl) s) as [a b]. simpl in *.
  now rewrite E, IH.
Qed.

(** The segmenter loses nothing and cuts at the tags only: the description
    chunk and the raw chunks, in order, make up the cleaned text; the
    description chunk holds no [@] that begins a line, and every raw chunk
    holds exactly one, its first character.  A continuation line, a blank
    line or an [@] inside a line stays in the chunk of its tag. *)
Theorem segmenter_cuts_at_tags (text : string) :
  fst (Re.split_at_tag true (PyInspect.cleandoc text))
    ++ String.concat "" (tag_chunks text) = PyInspect.cleandoc text
  /\ count_tags true (fst (Re.split_at_tag true (PyInspect.cleandoc text))) = 0
  /\ Forall (fun chunk => startswith "@" chunk = true
                          /\ count_tags true chunk = 1) (tag_chunks text).
Proof.
  destruct (tag_chunks_partition text) as (Hcat & Hstart & _).
  repeat split; [exact Hcat | apply split_at_tag_no_tag |].
  apply Forall_and. split; [exact Hstart|].
  apply tag_spans_one_tag.
Qed.

(** A text without a line that begins with [@] has no metadata: the call
    returns, under every keyword table, an object with an empty [meta]
    whose descriptions come from the whole cleaned text. *)
Theorem text_without_tags (K : Keywords) (σ : store) (text : string) :
  count_tags true (PyInspect.cleandoc text) = 0 ->
  exists d,
    parse_outcome K σ text = Ok (Some d)
    /\ meta d = []
    /\ d = with_descriptions (PyInspect.cleandoc text) (Docstring_init REST).
Proof.
  intros H. rewrite parse_outcome_eq. unfold tag_chunks, parsed.
  rewrite (count_tags_zero _ _ H). simpl.
  eexists. split; [reflexivity|]. split; [|reflexivity].
  now rewrite meta_with_descriptions.
Qed.

Lemma text_without_tags_witness :
  exists d,
    parse_outcome spec_keywords ∅
      ("  Adds two numbers." ++ String nl (String nl "  The sum may overflow."))
    = Ok (Some d)
    /\ meta d = []
    /\ d = {| style := REST;
              short_description := Some "Adds two numbers.";
              long_description := Some "The sum may overflow.";
              blank_after_short_description := true;
              blank_after_long_description := false;
              meta := [] |}.
Proof.
  apply (text_without_tags spec_keywords ∅
           ("  Adds two numbers." ++ String nl (String nl "  The sum may overflow."))).
  reflexivity.
Defined.

End Descriptions.

(** ** What [inspect.cleandoc] guarantees to the segmenter *)

Section Cleaned.
Import PyStr.

Lemma partition_pieces (sep : ascii) (s a b : string) :
  partition sep s = Some (a, b) ->
  s = a ++ String sep b /\ contains sep a = false.
Proof.
  revert a. induction s as [|x s IH]; simpl; intros a H; [discriminate|].
  destruct (Ascii.eqb x sep) eqn:Hx.
  - apply Ascii.eqb_eq in Hx as ->. injection H as <- <-. split; reflexivity.
  - destruct (partition sep s) as [[a' b']|]; [|discriminate].
    injection H as <- <-. destruct (IH a' eq_refl) as [-> Ha].
    split; [reflexivity|]. simpl. now rewrite Hx.
Qed.

Lemma partition_None_inv (sep : ascii) (s : string) :
  partition sep s = None -> contains sep s = false.
Proof.
  induction s as [|x s IH]; simpl; [reflexivity|].
  destruct (Ascii.eqb x sep); [discriminate|].
  destruct (partition sep s) as [[a b]|]; [discriminate|]. auto.
Qed.

Lemma length_append (a b : string) :
  String.length (a ++ b) = String.length a + String.length b.
Proof. induction a as [|x a IH]; simpl; [reflexivity | now rewrite IH]. Qed.

(** With enough splits allowed, no field holds the separator. *)
Lemma split_fields_no_sep (sep : ascii) (n : nat) (s : string) :
  String.length s <= n ->
  Forall (fun field => contains sep field = false) (split sep n s).
Proof.
  revert s. induction n as [|n IH]; intros s Hn; simpl.
  - destruct s; [|simpl in Hn; lia]. repeat constructor.
  - destruct (partition sep s) as [[a b]|] eqn:E.
    + destruct (partition_pieces _ _ _ _ E) as [-> Ha].
      constructor; [exact Ha|]. apply IH.
      rewrite length_append in Hn. simpl in Hn. lia.
    + repeat constructor. now apply partition_None_inv.
Qed.

(** A field holds no character that its string does not hold. *)
Lemma split_fields_absent (c sep : ascii) (n : nat) (s : string) :
  contains c s = false ->
  Forall (fun field => contains c field = false) (split sep n s).
Proof.
  revert s. induction n as [|n IH]; intros s Hs; simpl; [repeat constructor; auto|].
  destruct (partition sep s) as [[a b]|] eqn:E; [|repeat constructor; auto].
  destruct (partition_pieces _ _ _ _ E) as [-> _].
  rewrite contains_app in Hs. apply orb_false_iff in Hs as [Ha Hb].
  simpl in Hb. apply orb_false_iff in Hb as [_ Hb].
  constructor; auto.
Qed.

Lemma lstrip_by_absent (c : ascii) (p : ascii -> bool) (s : string) :
  contains c s = false -> contains c (lstrip_by p s) = false.
Proof.
  induction s as [|x s IH]; simpl; [reflexivity|]. intros H.
  destruct (p x); [|exact H].
  apply orb_false_iff in H as [_ H]. auto.
Qed.

Lemma drop_absent (c : ascii) (n : nat) (s : string) :
  contains c s = false -> contains c (drop n s) = false.
Proof.
  revert s. induction n as [|n IH]; intros s H; simpl; [exact H|].
  destruct s as [|x s]; [reflexivity|].
  simpl in H. apply orb_false_iff in H as [_ H]. auto.
Qed.

Lemma pop_trailing_Forall (P : string -> Prop) (lines : list string) :
  Forall P lines -> Forall P (PyInspect.pop_trailing lines).
Proof.
  induction 1 as [|line rest Hl Hr IH]; simpl; [constructor|].
  destruct (PyInspect.pop_trailing rest) as [|r rs].
  - destruct line; repeat constructor; auto.
  - constructor; auto.
Qed.

Lemma pop_leading_Forall (P : string -> Prop) (lines : list string) :
  Forall P lines -> Forall P (PyInspect.pop_leading lines).
Proof.
  induction 1 as [|line rest Hl Hr IH]; simpl; [constructor|].
  destruct line; [exact IH | constructor; auto].
Qed.

Lemma pop_leading_head (lines : list string) :
  match PyInspect.pop_leading lines with
  | [] => True
  | line :: _ => line <> ""
  end.
Proof.
  induction lines as [|line rest IH]; simpl; [exact I|].
  destruct line; [exact IH | discriminate].
Qed.

Lemma join_absent (c sep : ascii) (lines : list string) :
  Ascii.eqb sep c = false ->
  Forall (fun line => contains c line = false) lines ->
  contains c (join sep lines) = false.
Proof.
  intros Hsep. unfold join. induction 1 as [|line rest Hl Hr IH]; [reflexivity|].
  destruct rest as [|r rest]; [exact Hl|].
  change (String.concat (String sep "") (line :: r :: rest))
    with (line ++ String sep (String.concat (String sep "") (r :: rest))).
  rewrite contains_app, Hl. cbn [contains orb]. now rewrite Hsep, IH.
Qed.

(** The lines of a cleaned text, before they are joined. *)
Lemma cleandoc_lines (doc : string) :
  exists lines,
    PyInspect.cleandoc doc = join nl (PyInspect.pop_leading lines)
    /\ Forall (fun line => contains nl line = false) lines
    /\ Forall (fun line => contains tab line = false) lines.
Proof.
  unfold PyInspect.cleandoc.
  assert (Htab : forall col s, contains tab (expandtabs_from col s) = false).
  { intros col s. revert col. induction s as [|x s IH]; intros col; [reflexivity|].
    cbn [expandtabs_from]. destruct (Ascii.eqb x tab) eqn:E.
    - rewrite contains_app, IH, orb_false_r.
      generalize (8 - col mod 8). intros n.
      induction n as [|n IHn]; [reflexivity | simpl; exact IHn].
    - cbn [contains]. now rewrite E, IH. }
  pose proof (split_fields_no_sep nl _ (expandtabs doc) (le_n _)) as Hnl.
  pose proof (split_fields_absent tab nl (String.length (expandtabs doc))
                (expandtabs doc) (Htab 0 doc)) as Ht.
  fold (split_all nl (expandtabs doc)) in Hnl, Ht.
  destruct (split_all nl (expandtabs doc)) as [|first rest].
  { exists []. repeat split; constructor. }
  apply Forall_cons in Hnl as [Hnl1 Hnl2]. apply Forall_cons in Ht as [Ht1 Ht2].
  eexists. split; [reflexivity|].
  assert (Hrest : forall c,
             Forall (fun line => contains c line = false) rest ->
             Forall (fun line => contains c line = false)
               match PyInspect.margin rest with
               | Some m => map (drop m) rest
               | None => rest
               end).
  { intros c H. destruct (PyInspect.margin rest) as [m|]; [|exact H].
    apply Forall_map. eapply Forall_impl; [exact H|].
    intros line Hline. now apply drop_absent. }
  split; apply pop_trailing_Forall; constructor; auto;
    unfold lstrip; now apply lstrip_by_absent.
Qed.

(** A cleaned text holds no tab and does not start with a newline. *)
Lemma cleandoc_shape (doc : string) :
  contains tab (PyInspect.cleandoc doc) = false
  /\ startswith (String nl "") (PyInspect.cleandoc doc) = false.
Proof.
  destruct (cleandoc_lines doc) as (lines & -> & Hnl & Htab).
  split.
  - apply join_absent; [reflexivity|]. now apply pop_leading_Forall.
  - pose proof (pop_leading_head lines) as Hhead.
    pose proof (pop_leading_Forall _ _ Hnl) as Hnl'.
    destruct (PyInspect.pop_leading lines) as [|line rest]; [reflexivity|].
    apply Forall_cons in Hnl' as [Hline _].
    destruct line as [|x line]; [congruence|].
    simpl in Hline. apply orb_false_iff in Hline as [Hx _].
    unfold join. destruct rest; simpl; now rewrite Hx.
Qed.

End Cleaned.

(** ** The short description, and tabs *)

Section ShortDescription.
Import PyStr.

Lemma with_metas_descriptions (ms : list DocstringMeta) (d : Docstring) :
  short_description (with_metas ms d) = short_description d
  /\ long_description (with_metas ms d) = long_description d.
Proof.
  revert d. induction ms as [|m ms IH]; intros d; simpl; [auto|].
  destruct (IH (meta_append m d)) as [-> ->]. auto.
Qed.

Lemma or_None_not_empty (s : string) : or_None s <> Some "".
Proof. destruct s; discriminate. Qed.

(** The descriptions lines 163-169 assign are never empty strings, and the
    short one is [None] only for an empty chunk or one that starts with a
    newline. *)
Lemma with_descriptions_short (desc_chunk : string) :
  (short_description (with_descriptions desc_chunk (Docstring_init REST)) = None
   <-> desc_chunk = "" \/ startswith (String nl "") desc_chunk = true)
  /\ short_description (with_descriptions desc_chunk (Docstring_init REST)) <> Some ""
  /\ long_description (with_descriptions desc_chunk (Docstring_init REST)) <> Some "".
Proof.
  unfold with_descriptions. cbn [split].
  destruct (partition nl desc_chunk) as [[a b]|] eqn:E; simpl.
  - destruct (partition_pieces _ _ _ _ E) as [-> Ha].
    repeat split; try apply or_None_not_empty.
    + destruct a as [|x a]; [intros _; right; reflexivity | discriminate].
    + intros [H|H]; [destruct a; discriminate H|].
      destruct a as [|x a]; [reflexivity|]. exfalso.
      simpl in H, Ha. rewrite andb_true_r in H.
      apply orb_false_iff in Ha as [Hx _]. congruence.
  - repeat split; try apply or_None_not_empty; try discriminate.
    + destruct desc_chunk; [auto | discriminate].
    + intros [->|H]; [reflexivity|]. exfalso.
      apply partition_None_inv in E. destruct desc_chunk as [|x s]; [discriminate H|].
      simpl in H, E. rewrite andb_true_r in H.
      apply orb_false_iff in E as [Hx _]. congruence.
Qed.

(** In the object [parse] returns, [short_description] is [None] exactly
    when no text precedes the first tag, and neither description is ever
    the empty string: [inspect.cleandoc] has removed the blank lines a text
    starts with, so the first line of a description chunk that is not empty
    is not empty either. *)
Theorem short_description_None_iff (K : Keywords) (σ : store) (text : string)
        (d : Docstring) :
  parse_outcome K σ text = Ok (Some d) ->
  (short_description d = None
   <-> fst (Re.split_at_tag true (PyInspect.cleandoc text)) = "")
  /\ short_description d <> Some ""
  /\ long_description d <> Some "".
Proof.
  rewrite parse_outcome_eq.
  destruct (interpret_all K (tag_chunks text)) as [ms|e]; [|discriminate].
  simpl. intros [= <-]. unfold parsed.
  destruct (with_metas_descriptions ms
              (with_descriptions (fst (Re.split_at_tag true (PyInspect.cleandoc text)))
                 (Docstring_init REST))) as [-> ->].
  destruct (with_descriptions_short
              (fst (Re.split_at_tag true (PyInspect.cleandoc text))))
    as (Hiff & Hs & Hl).
  repeat split; auto.
  - intros H. apply Hiff in H as [H|H]; [exact H|]. exfalso.
    destruct (cleandoc_shape text) as [_ Hnl].
    rewrite <- (split_at_tag_app true (PyInspect.cleandoc text)) in Hnl.
    destruct (fst (Re.split_at_tag true (PyInspect.cleandoc text))) as [|x s];
      [discriminate H|].
    simpl in H, Hnl. congruence.
  - intros H. apply Hiff. now left.
Qed.

Lemma short_description_None_iff_witness :
  exists d,
    parse_outcome spec_keywords ∅ "@deprecated" = Ok (Some d)
    /\ short_description d = None.
Proof.
  eexists. split; [vm_compute; reflexivity|].
  apply (short_description_None_iff spec_keywords ∅ "@deprecated").
  - vm_compute. reflexivity.
  - reflexivity.
Defined.

Lemma concat_absent (c : ascii) (l : list string) :
  contains c (String.concat "" l) = false ->
  Forall (fun s => contains c s = false) l.
Proof.
  induction l as [|x l IH]; [constructor|].
  destruct l as [|y l]; [repeat constructor; auto|].
  change (String.concat "" (x :: y :: l)) with (x ++ String.concat "" (y :: l)).
  rewrite contains_app. intros H. apply orb_false_iff in H as [Hx Hl].
  constructor; auto.
Qed.

(** No tab reaches the tag interpreter: [inspect.cleandoc] expands the tabs
    of the text before the segmenter runs, so neither the description chunk
    nor any raw chunk holds a tab character. *)
Theorem no_tab_reaches_interpreter (text : string) :
  contains tab (fst (Re.split_at_tag true (PyInspect.cleandoc text))) = false
  /\ Forall (fun chunk => contains tab chunk = false) (tag_chunks text).
Proof.
  destruct (cleandoc_shape text) as [Htab _].
  destruct (tag_chunks_partition text) as (Hcat & _).
  rewrite <- Hcat, contains_app in Htab.
  apply orb_false_iff in Htab as [H1 H2].
  split; [exact H1 | now apply concat_absent].
Qed.

End ShortDescription.

(** ** More param-class records *)

Section ParamMore.
Import PyStr.

Lemma startswith_absent (c : ascii) (s : string) :
  contains c s = false -> startswith (String c "") s = false.
Proof.
  destruct s as [|x s]; simpl; [reflexivity|]. intros H.
  apply orb_false_iff in H as [-> _]. reflexivity.
Qed.

(** The interpreter on [@param {T} a desc], whatever the token [a]. *)
Lemma param_chunk_tokens (K : Keywords) (T a desc : string) :
  contains " " T = false -> contains " " a = false -> contains nl a = false ->
  exists description,
    interpret_chunk K ("@param {" ++ T ++ "} " ++ a ++ " " ++ desc)
    = _build_meta K ["param"; "{" ++ T ++ "}"; a] description.
Proof.
  intros HT Ha Hn.
  destruct (clean_description_Ok
              (rstrip_by (fun c => contains c (String nl "")) desc))
    as [description Hd].
  exists description.
  apply (interpret_chunk_eq K _ "param"
           ("{" ++ T ++ "} " ++ a ++ " " ++ desc)
           (rstrip_by (fun c => contains c (String nl "")) desc)).
  - apply (split_tag_space "param"). reflexivity.
  - rewrite (tag_args_param T a desc HT Ha).
    now rewrite (strip_chars_absent _ _ Hn).
  - exact Hd.
Qed.

(** A type token that ends in [=] sets [type_name] without the [=] and
    marks the parameter optional. *)
Lemma scan_optional_type_token (st : ParamLocals) (T : string) :
  contains nl T = false -> contains "}" T = false ->
  scan_param_token st ("{" ++ T ++ "=}")
  = Ok {| v_type_name := Some T; v_arg_name := v_arg_name st;
          v_is_optional := Some true; v_default := v_default st |}.
Proof.
  intros Hn Hc. unfold scan_param_token.
  replace ("{" ++ T ++ "=}") with (String "{" ((T ++ "=") ++ String "}" ""))
    by (simpl; now rewrite append_assoc).
  rewrite search_span_app, unwrap_braces by (rewrite contains_app; simpl; now rewrite ?Hn, ?Hc).
  rewrite (endswith_app T "="), drop_last_app. reflexivity.
Qed.

(** For every chunk [@param {T=} name desc] the record has
    [type_name == T], without the [=], and [is_optional == True]. *)
Theorem param_optional_type (K : Keywords) (T name desc : string) :
  "param" ∈ PARAM_KEYWORDS K ->
  contains " " T = false -> contains nl T = false -> contains "}" T = false ->
  plain_name name = true ->
  exists description,
    interpret_chunk K ("@param {" ++ T ++ "=} " ++ name ++ " " ++ desc)
    = Ok (DocstringParam ["param"; "{" ++ T ++ "=}"; name] description
            name (Some T) (Some true) None).
Proof.
  intros HK HTs HTn HTc Hn.
  destruct (plain_name_inv _ Hn) as (Hns & Hnn & _).
  destruct (param_chunk_tokens K (T ++ "=") name desc) as [description Hd]; auto.
  { rewrite contains_app, HTs. reflexivity. }
  exists description.
  replace ("@param {" ++ T ++ "=} " ++ name ++ " " ++ desc)
    with ("@param {" ++ (T ++ "=") ++ "} " ++ name ++ " " ++ desc)
    by (simpl; now rewrite append_assoc).
  rewrite Hd.
  replace ("{" ++ (T ++ "=") ++ "}") with ("{" ++ T ++ "=}")
    by (simpl; now rewrite append_assoc).
  rewrite (build_meta_param K _ _ _ _ HK).
  rewrite (scan_optional_type_token _ T HTn HTc). cbn [mbind Result_bind].
  rewrite (scan_name_token_plain _ name Hn). reflexivity.
Qed.

Lemma param_optional_type_witness :
  exists description,
    interpret_chunk spec_keywords "@param {number=} count how many"
    = Ok (DocstringParam ["param"; "{number=}"; "count"] description
            "count" (Some "number") (Some true) None).
Proof.
  apply (param_optional_type spec_keywords "number" "count" "how many").
  - apply (bool_decide_unpack _). vm_compute. exact I.
  - reflexivity.
  - reflexivity.
  - reflexivity.
  - reflexivity.
Defined.

End ParamMore.

(** ** Bracketed names *)

Section BracketNames.
Import PyStr.

Lemma endswith_absent (c : ascii) (s : string) :
  contains c s = false -> endswith (String c "") s = false.
Proof.
  induction s as [|x s IH]; simpl; [reflexivity|]. intros H.
  apply orb_false_iff in H as [Hx Hs]. now rewrite (IH Hs), Hx.
Qed.

(** A type without brackets is left alone by lines 61-64. *)
Lemma unwrap_brackets_absent (T : string) :
  contains "[" T = false -> contains "]" T = false -> unwrap "[" "]" T = T.
Proof.
  intros Ho Hc. unfold unwrap.
  now rewrite (startswith_absent _ _ Ho), (endswith_absent _ _ Hc).
Qed.

(** What a bracket token matches: itself, as a name and not as a type. *)
Lemma bracket_token_matches (n : string) :
  contains "{" n = false -> contains "]" n = false -> contains nl n = false ->
  Re.search_span "{" "}" ("[" ++ n ++ "]") = None
  /\ Re.match_span "[" "]" ("[" ++ n ++ "]") = Some ("[" ++ n ++ "]").
Proof.
  intros Hb Hc Hn. split.
  - apply search_span_absent. simpl. rewrite contains_app, Hb. reflexivity.
  - apply (match_span_app "[" "]" n "" Hc Hn).
Qed.


Lemma split_all_more (sep : ascii) (a b c : string) :
  contains sep a = false -> contains sep b = false ->
  exists x y z rest, split_all sep (a ++ String sep (b ++ String sep c))
                     = x :: y :: z :: rest.
Proof.
  intros Ha Hb. unfold split_all. rewrite !length_append. simpl String.length.
  rewrite length_append. simpl String.length.
  rewrite !Nat.add_succ_r, split_app by exact Ha.
  rewrite split_app by exact Hb.
  destruct (split sep (String.length a + (String.length b + String.length c)) c)
    as [|z rest] eqn:E.
  - pose proof (split_length sep (String.length a + (String.length b + String.length c)) c) as H.
    rewrite E in H. simpl in H. lia.
  - eauto.
Qed.

(** One iteration of the scan on a bracket token, once a type was seen. *)
Lemma scan_bracket_token (T n : string) (an : option string) (o : option bool)
      (dflt : option string) :
  contains "[" T = false -> contains "]" T = false ->
  contains "{" n = false -> contains "]" n = false -> contains nl n = false ->
  scan_param_token {| v_type_name := Some T; v_arg_name := an;
                      v_is_optional := o; v_default := dflt |} ("[" ++ n ++ "]")
  = if contains "=" n then
      match split_all "=" ("[" ++ n ++ "]") with
      | [a; d] => Ok {| v_type_name := Some T; v_arg_name := Some a;
                        v_is_optional := Some true; v_default := Some d |}
      | _ => Raise ValueError
      end
    else Ok {| v_type_name := Some T; v_arg_name := Some ("[" ++ n ++ "]");
               v_is_optional := Some true; v_default := dflt |}.
Proof.
  intros HTo HTc Hb Hc Hn.
  destruct (bracket_token_matches n Hb Hc Hn) as [Hs Hm].
  unfold scan_param_token. rewrite Hs, Hm. cbn [v_type_name v_default].
  rewrite (unwrap_brackets_absent T HTo HTc).
  replace (contains "=" ("[" ++ n ++ "]")) with (contains "=" n); [reflexivity|].
  simpl. rewrite contains_app. simpl. now rewrite orb_false_r.
Qed.



(** A bracketed name with more than one [=] after its type raises
    [ValueError]: the split at line 66 has no bound, and its result is
    unpacked into two names. *)
Theorem bracket_default_with_equals_raises (K : Keywords)
        (T name default_ more desc : string) :
  "param" ∈ PARAM_KEYWORDS K ->
  plain_type T = true -> contains "[" T = false -> contains "]" T = false ->
  forallb (fun s => negb (contains " " s) && negb (contains nl s)
                    && negb (contains "{" s) && negb (contains "]" s))
          [name; default_; more] = true ->
  contains "=" name = false -> contains "=" default_ = false ->
  interpret_chunk K
    ("@param {" ++ T ++ "} [" ++ name ++ "=" ++ default_ ++ "=" ++ more ++ "] "
       ++ desc)
  = Raise ValueError.
Proof.
  intros HK HT HTo HTc Hall Hne Hde.
  destruct (plain_type_inv _ HT) as (HTs & _).
  simpl in Hall. rewrite !andb_true_iff, !negb_true_iff in Hall.
  destruct Hall as [(((Hns & Hnn) & Hnb) & Hnc)
                      [(((Hds & Hdn) & Hdb) & Hdc)
                         [(((Hms & Hmn) & Hmb) & Hmc) _]]].
  set (n := name ++ "=" ++ default_ ++ "=" ++ more).
  assert (Hfree : forall c, contains c name = false -> contains c default_ = false ->
                            contains c more = false -> Ascii.eqb "=" c = false ->
                            contains c n = false).
  { intros c H1 H2 H3 H4. unfold n. rewrite contains_app, H1.
    cbn [String.append contains orb]. rewrite H4, contains_app, H2.
    cbn [String.append contains orb]. now rewrite H4, H3. }
  destruct (param_chunk_tokens K T ("[" ++ n ++ "]") desc) as [description Hd];
    auto; try (simpl; rewrite contains_app, Hfree by auto; reflexivity).
  replace ("@param {" ++ T ++ "} [" ++ name ++ "=" ++ default_ ++ "=" ++ more
             ++ "] " ++ desc)
    with ("@param {" ++ T ++ "} " ++ ("[" ++ n ++ "]") ++ " " ++ desc)
    by (unfold n; repeat first [rewrite append_assoc | progress simpl]; reflexivity).
  rewrite Hd, (build_meta_param K _ _ _ _ HK).
  rewrite (scan_type_token_plain _ T HT). cbn [mbind Result_bind].
  cbn [v_arg_name v_is_optional v_default].
  rewrite (scan_bracket_token T n _ _ _ HTo HTc) by (apply Hfree; auto).
  replace (contains "=" n) with true
    by (unfold n; rewrite contains_app; simpl; now rewrite orb_true_r).
  replace ("[" ++ n ++ "]")
    with (("[" ++ name) ++ String "=" (default_ ++ String "=" (more ++ "]")))
    by (unfold n; repeat first [rewrite append_assoc | progress simpl]; reflexivity).
  destruct (split_all_more "=" ("[" ++ name) default_ (more ++ "]"))
    as (x & y & z & rest & ->); [simpl; exact Hne | exact Hde |].
  reflexivity.
Qed.

Lemma bracket_default_with_equals_raises_witness :
  interpret_chunk spec_keywords "@param {string} [op=a=b] the operator"
  = Raise ValueError.
Proof.
  apply (bracket_default_with_equals_raises spec_keywords
           "string" "op" "a" "b" "the operator").
  - apply (bool_decide_unpack _). vm_compute. exact I.
  - reflexivity.
  - reflexivity.
  - reflexivity.
  - reflexivity.
  - reflexivity.
  - reflexivity.
Defined.

End BracketNames.

(** ** Records of the other classes *)

Section OtherClasses.
Import PyStr.

Lemma return_tags_shape (tag : string) :
  tag ∈ ["return"; "throws"; "type"] ->
  contains " " tag = false /\ strip_chars "@" (String "@" tag) = tag.
Proof.
  rewrite !elem_of_cons, elem_of_nil.
  intros [->|[->|[->|[]]]]; split; reflexivity.
Qed.

(** The interpreter on [@tag a desc] for one of the tags [return], [throws]
    and [type]: the first token [a] after the tag is the second argument,
    the rest is the description. *)
Lemma return_chunk_tokens (K : Keywords) (tag : string) (c : ascii) (a desc : string) :
  tag ∈ ["return"; "throws"; "type"] ->
  isspace c = false -> contains " " (String c a) = false ->
  exists description,
    clean_description desc = Ok description
    /\ interpret_chunk K ("@" ++ tag ++ " " ++ String c a ++ " " ++ desc)
       = _build_meta K [tag; String c a] description.
Proof.
  intros Ht Hc Ha. destruct (return_tags_shape tag Ht) as [Hts Hstrip].
  destruct (clean_description_Ok desc) as [description Hd].
  exists description. split; [exact Hd|].
  apply (interpret_chunk_eq K _ tag (String c a ++ " " ++ desc) desc); [| |exact Hd].
  - change ("@" ++ tag ++ " " ++ String c a ++ " " ++ desc)
      with (String "@" (tag ++ String " " (String c a ++ " " ++ desc))).
    now rewrite (split_tag_space tag _ Hts), Hstrip.
  - unfold tag_args.
    rewrite (bool_decide_false _ (return_tags_not_param _ Ht)).
    rewrite (bool_decide_true _ Ht). unfold lstrip.
    change (String c a ++ " " ++ desc) with (String c (a ++ String " " desc)).
    rewrite (lstrip_by_head _ _ _ Hc).
    change (String c (a ++ String " " desc)) with (String c a ++ String " " desc).
    now rewrite (split_app _ _ _ _ Ha).
Qed.

Lemma scan_type_token_braces (type_name : option string) (T : string) :
  contains nl T = false -> contains "}" T = false ->
  scan_type_token type_name ("{" ++ T ++ "}") = Ok (Some T).
Proof.
  intros Hn Hc. unfold scan_type_token. simpl String.append.
  now rewrite (match_span_app "{" "}" T "" Hc Hn), unwrap_braces.
Qed.

(** For every chunk [@return {T} desc] the record is returns-class with
    [type_name == T] and [is_generator == False], and its description is
    the cleaned [desc]. *)
Theorem return_type_record (K : Keywords) (T desc : string) :
  "return" ∉ PARAM_KEYWORDS K ->
  "return" ∈ RETURNS_KEYWORDS K ->
  "return" ∉ YIELDS_KEYWORDS K ->
  contains " " T = false -> contains nl T = false -> contains "}" T = false ->
  exists description,
    clean_description desc = Ok description
    /\ interpret_chunk K ("@return {" ++ T ++ "} " ++ desc)
       = Ok (DocstringReturns ["return"; "{" ++ T ++ "}"] description (Some T) false).
Proof.
  intros Hp Hr Hy Hs Hn Hc.
  destruct (return_chunk_tokens K "return" "{" (T ++ "}") desc)
    as (description & Hd & Hi).
  { apply list_elem_of_here. }
  { reflexivity. }
  { simpl. rewrite contains_app, Hs. reflexivity. }
  exists description. split; [exact Hd|].
  replace ("@return {" ++ T ++ "} " ++ desc)
    with ("@" ++ "return" ++ " " ++ String "{" (T ++ "}") ++ " " ++ desc)
    by (repeat first [rewrite append_assoc | progress simpl]; reflexivity).
  rewrite Hi. unfold _build_meta.
  rewrite (bool_decide_false _ Hp).
  rewrite bool_decide_true by (apply elem_of_union; now left).
  rewrite (bool_decide_false _ Hy).
  cbn [for_tokens mbind Result_bind].
  change (String "{" (T ++ "}")) with ("{" ++ T ++ "}").
  rewrite (scan_type_token_braces None T Hn Hc). reflexivity.
Qed.

Lemma return_type_record_witness :
  exists description,
    clean_description "This return integer" = Ok description
    /\ interpret_chunk spec_keywords "@return {int} This return integer"
       = Ok (DocstringReturns ["return"; "{int}"] description (Some "int") false).
Proof.
  apply (return_type_record spec_keywords "int" "This return integer").
  - apply (bool_decide_unpack _). vm_compute. exact I.
  - apply (bool_decide_unpack _). vm_compute. exact I.
  - apply (bool_decide_unpack _). vm_compute. exact I.
  - reflexivity.
  - reflexivity.
  - reflexivity.
Defined.

(** A [@return] without a type loses the first word of its text: the first
    token after the tag always becomes the second argument, so when it does
    not open a brace span the record has no type and its description starts
    at the second word. *)
Theorem return_first_word_is_argument (K : Keywords) (c : ascii) (w desc : string) :
  "return" ∉ PARAM_KEYWORDS K ->
  "return" ∈ RETURNS_KEYWORDS K ->
  "return" ∉ YIELDS_KEYWORDS K ->
  isspace c = false -> Ascii.eqb c "{" = false ->
  contains " " (String c w) = false ->
  exists description,
    clean_description desc = Ok description
    /\ interpret_chunk K ("@return " ++ String c w ++ " " ++ desc)
       = Ok (DocstringReturns ["return"; String c w] description None false).
Proof.
  intros Hp Hr Hy Hc Hb Hs.
  destruct (return_chunk_tokens K "return" c w desc) as (description & Hd & Hi);
    [apply list_elem_of_here | exact Hc | exact Hs |].
  exists description. split; [exact Hd|].
  change ("@return " ++ String c w ++ " " ++ desc)
    with ("@" ++ "return" ++ " " ++ String c w ++ " " ++ desc).
  rewrite Hi. unfold _build_meta.
  rewrite (bool_decide_false _ Hp).
  rewrite bool_decide_true by (apply elem_of_union; now left).
  rewrite (bool_decide_false _ Hy).
  cbn [for_tokens mbind Result_bind]. unfold scan_type_token, Re.match_span.
  rewrite Hb. reflexivity.
Qed.

Lemma return_first_word_is_argument_witness :
  exists description,
    clean_description "sum of both" = Ok description
    /\ interpret_chunk spec_keywords "@return the sum of both"
       = Ok (DocstringReturns ["return"; "the"] description None false).
Proof.
  apply (return_first_word_is_argument spec_keywords "t" "he" "sum of both").
  - apply (bool_decide_unpack _). vm_compute. exact I.
  - apply (bool_decide_unpack _). vm_compute. exact I.
  - apply (bool_decide_unpack _). vm_compute. exact I.
  - reflexivity.
  - reflexivity.
  - reflexivity.
Defined.

(** For every chunk [@throws {T} desc], when [throws] is a raises keyword
    that no earlier class takes, the record is raises-class with
    [type_name == T]. *)
Theorem throws_type_record (K : Keywords) (T desc : string) :
  "throws" ∉ PARAM_KEYWORDS K ->
  "throws" ∉ RETURNS_KEYWORDS K ∪ YIELDS_KEYWORDS K ->
  "throws" ∉ DEPRECATION_KEYWORDS K ->
  "throws" ∈ RAISES_KEYWORDS K ->
  contains " " T = false -> contains nl T = false -> contains "}" T = false ->
  exists description,
    clean_description desc = Ok description
    /\ interpret_chunk K ("@throws {" ++ T ++ "} " ++ desc)
       = Ok (DocstringRaises ["throws"; "{" ++ T ++ "}"] description (Some T)).
Proof.
  intros Hp Hr Hd Hx Hs Hn Hc.
  destruct (return_chunk_tokens K "throws" "{" (T ++ "}") desc)
    as (description & Hdesc & Hi).
  { apply list_elem_of_further, list_elem_of_here. }
  { reflexivity. }
  { simpl. rewrite contains_app, Hs. reflexivity. }
  exists description. split; [exact Hdesc|].
  replace ("@throws {" ++ T ++ "} " ++ desc)
    with ("@" ++ "throws" ++ " " ++ String "{" (T ++ "}") ++ " " ++ desc)
    by (repeat first [rewrite append_assoc | progress simpl]; reflexivity).
  rewrite Hi. unfold _build_meta.
  rewrite (bool_decide_false _ Hp), (bool_decide_false _ Hr),
    (bool_decide_false _ Hd), (bool_decide_true _ Hx).
  cbn [for_tokens mbind Result_bind].
  change (String "{" (T ++ "}")) with ("{" ++ T ++ "}").
  rewrite (scan_type_token_braces None T Hn Hc). reflexivity.
Qed.

Lemma throws_type_record_witness :
  exists description,
    clean_description "On input error." = Ok description
    /\ interpret_chunk spec_keywords "@throws {IOException} On input error."
       = Ok (DocstringRaises ["throws"; "{IOException}"] description
               (Some "IOException")).
Proof.
  apply (throws_type_record spec_keywords "IOException" "On input error.").
  - apply (bool_decide_unpack _). vm_compute. exact I.
  - apply (bool_decide_unpack _). vm_compute. exact I.
  - apply (bool_decide_unpack _). vm_compute. exact I.
  - apply (bool_decide_unpack _). vm_compute. exact I.
  - reflexivity.
  - reflexivity.
  - reflexivity.
Defined.

End OtherClasses.

(** ** Which chunks raise, and what every record holds *)

Section Totality.
Import PyStr.

Lemma for_tokens_scan_type (type_name : option string) (l : list string) :
  exists t, for_tokens scan_type_token type_name l = Ok t.
Proof.
  revert type_name. induction l as [|x l IH]; intros type_name; [simpl; eauto|].
  cbn [for_tokens].
  assert (Hx : exists t, scan_type_token type_name x = Ok t).
  { unfold scan_type_token. destruct (Re.match_span "{" "}" x); eauto. }
  destruct Hx as [t ->]. cbn [mbind Result_bind]. apply IH.
Qed.

(** Outside the param class [_build_meta] returns a record, whatever the
    tokens and the description are. *)
Lemma build_meta_outside_param (K : Keywords) (key : string) (tail : list string)
      (desc : string) :
  key ∉ PARAM_KEYWORDS K ->
  exists m, _build_meta K (key :: tail) desc = Ok m
            /\ meta_args m = key :: tail.
Proof.
  intros Hp. unfold _build_meta. rewrite (bool_decide_false _ Hp).
  destruct (bool_decide (key ∈ RETURNS_KEYWORDS K ∪ YIELDS_KEYWORDS K)).
  { destruct (for_tokens_scan_type None tail) as [t ->]. simpl. eauto. }
  destruct (bool_decide (key ∈ DEPRECATION_KEYWORDS K)).
  { destruct (Re.match_version desc) as [[v d]|]; eauto. }
  destruct (bool_decide (key ∈ RAISES_KEYWORDS K)); [|eauto].
  destruct (for_tokens_scan_type None tail) as [t ->]. simpl. eauto.
Qed.

(** Every record carries the token set it was built from. *)
Lemma build_meta_args (K : Keywords) (args : list string) (desc : string)
      (m : DocstringMeta) :
  _build_meta K args desc = Ok m -> meta_args m = args.
Proof.
  destruct args as [|key tail]; [discriminate|].
  destruct (decide (key ∈ PARAM_KEYWORDS K)) as [Hp|Hp].
  - unfold _build_meta. rewrite (bool_decide_true _ Hp).
    destruct (match tail with
              | [_; _] => Ok tail
              | [a] => Ok (chars a)
              | _ => Raise (ParseError
                       ("Expected two or three arguments for a " ++ key ++ " keyword."))
              end) as [names|e]; [|discriminate].
    cbn [mbind Result_bind].
    destruct (for_tokens scan_param_token _ names) as [st|e]; [|discriminate].
    cbn [mbind Result_bind].
    destruct (v_arg_name st); [|discriminate]. now intros [= <-].
  - destruct (build_meta_outside_param K key tail desc Hp) as (m' & -> & Hm).
    now intros [= <-].
Qed.

(** The token set of a chunk starts with its tag name and has at most three
    tokens. *)
Lemma tag_args_shape (tag d d' : string) (args : list string) :
  tag_args tag d = Ok (args, d') ->
  exists tail, args = strip_chars (String nl "") tag :: tail /\ length tail <= 2.
Proof.
  unfold tag_args.
  destruct (bool_decide (tag ∈ ["param"; "typedef"; "property"])) eqn:E1.
  { apply bool_decide_eq_true in E1. rewrite (param_tags_strip _ E1).
    destruct (split " " 2 _) as [|u [|a [|x [|? ?]]]]; try discriminate;
      intros [= <- <-]; eexists; (split; [reflexivity | simpl; lia]). }
  destruct (bool_decide (tag ∈ ["return"; "throws"; "type"])) eqn:E2.
  { apply bool_decide_eq_true in E2. rewrite (return_tags_strip _ E2).
    destruct (split " " 1 _) as [|a [|x [|? ?]]]; try discriminate;
      intros [= <- <-]; eexists; (split; [reflexivity | simpl; lia]). }
  intros [= <- <-]. eexists. split; [reflexivity | simpl; lia].
Qed.

(** A chunk can raise only in the param class: when its tag is none of
    [param], [typedef] and [property] and its tag name is no param keyword,
    its interpretation returns a record.  Unknown tags, return, throws,
    type, yield and deprecation tags never abort the parse. *)
Theorem only_param_chunks_raise (K : Keywords) (chunk tag desc_chunk : string) :
  split_tag chunk = Ok (tag, desc_chunk) ->
  tag ∉ ["param"; "typedef"; "property"] ->
  strip_chars (String nl "") tag ∉ PARAM_KEYWORDS K ->
  exists m, interpret_chunk K chunk = Ok m.
Proof.
  intros Hs Ht Hp.
  assert (Ha : exists args d, tag_args tag desc_chunk = Ok (args, d)).
  { unfold tag_args. rewrite (bool_decide_false _ Ht).
    destruct (bool_decide (tag ∈ ["return"; "throws"; "type"])); [|eauto].
    pose proof (split_length " " 1 (lstrip desc_chunk)) as H.
    destruct (split " " 1 (lstrip desc_chunk)) as [|a [|b [|? ?]]];
      simpl in H; try lia; eauto. }
  destruct Ha as (args & d & Ha).
  destruct (tag_args_shape _ _ _ _ Ha) as (tail & -> & _).
  destruct (clean_description_Ok d) as [description Hd].
  destruct (build_meta_outside_param K _ tail description Hp) as (m & Hm & _).
  exists m. now rewrite (interpret_chunk_eq K _ _ _ _ _ _ Hs Ha Hd).
Qed.

Lemma only_param_chunks_raise_witness :
  exists m, interpret_chunk spec_keywords "@see {@link other} for more" = Ok m.
Proof.
  apply (only_param_chunks_raise spec_keywords "@see {@link other} for more"
           "see" "{@link other} for more").
  - reflexivity.
  - apply (bool_decide_unpack _). vm_compute. exact I.
  - apply (bool_decide_unpack _). vm_compute. exact I.
Defined.

(** A tag whose name is in no keyword class and is none of the six names of
    the interpreter gives a generic record: its token set is the tag name
    alone and its description is the cleaned rest of the chunk. *)
Theorem unknown_tag_record (K : Keywords) (chunk tag desc_chunk : string) :
  split_tag chunk = Ok (tag, desc_chunk) ->
  strip_chars (String nl "") tag ∉ ["param"; "typedef"; "property"] ->
  strip_chars (String nl "") tag ∉ ["return"; "throws"; "type"] ->
  strip_chars (String nl "") tag ∉ PARAM_KEYWORDS K ->
  strip_chars (String nl "") tag ∉ RETURNS_KEYWORDS K ∪ YIELDS_KEYWORDS K ->
  strip_chars (String nl "") tag ∉ DEPRECATION_KEYWORDS K ->
  strip_chars (String nl "") tag ∉ RAISES_KEYWORDS K ->
  exists description,
    clean_description desc_chunk = Ok description
    /\ interpret_chunk K chunk
       = Ok (DocstringMeta_ [strip_chars (String nl "") tag] description).
Proof.
  intros Hs H1 H2 Hp Hr Hd Hx.
  pose proof (tag_args_other tag desc_chunk H1 H2) as Ha.
  destruct (clean_description_Ok desc_chunk) as [description Hdesc].
  exists description. split; [exact Hdesc|].
  rewrite (interpret_chunk_eq K _ _ _ _ _ _ Hs Ha Hdesc). unfold _build_meta.
  now rewrite (bool_decide_false _ Hp), (bool_decide_false _ Hr),
    (bool_decide_false _ Hd), (bool_decide_false _ Hx).
Qed.

Lemma unknown_tag_record_witness :
  exists description,
    clean_description "1.4.0" = Ok description
    /\ interpret_chunk spec_keywords "@since 1.4.0"
       = Ok (DocstringMeta_ ["since"] description).
Proof.
  apply (unknown_tag_record spec_keywords "@since 1.4.0" "since" "1.4.0").
  - reflexivity.
  - apply (bool_decide_unpack _). vm_compute. exact I.
  - apply (bool_decide_unpack _). vm_compute. exact I.
  - apply (bool_decide_unpack _). vm_compute. exact I.
  - apply (bool_decide_unpack _). vm_compute. exact I.
  - apply (bool_decide_unpack _). vm_compute. exact I.
  - apply (bool_decide_unpack _). vm_compute. exact I.
Defined.

(** In the object [parse] returns, every record names its tag: position by
    position, the first token of a record is the tag name of its chunk, and
    a record has one, two or three tokens. *)
Theorem records_name_their_tags (K : Keywords) (σ : store) (text : string)
        (d : Docstring) :
  parse_outcome K σ text = Ok (Some d) ->
  Forall2 (fun chunk m =>
             exists tag desc_chunk tail,
               split_tag chunk = Ok (tag, desc_chunk)
               /\ meta_args m = strip_chars (String nl "") tag :: tail
               /\ length tail <= 2)
          (tag_chunks text) (meta d).
Proof.
  rewrite parse_outcome_eq.
  destruct (interpret_all K (tag_chunks text)) as [ms|e] eqn:E; [|discriminate].
  simpl. intros [= <-]. unfold parsed.
  rewrite meta_with_metas, meta_with_descriptions. simpl.
  eapply Forall2_impl; [exact (interpret_all_Forall2 K _ _ E)|].
  intros chunk m Hm. unfold interpret_chunk in Hm.
  destruct (split_tag chunk) as [[tag d]|] eqn:Hs; [|discriminate].
  cbn [mbind Result_bind] in Hm.
  destruct (tag_args tag d) as [[args d']|] eqn:Ha; [|discriminate].
  cbn [mbind Result_bind] in Hm.
  destruct (clean_description d') as [desc|]; [|discriminate].
  cbn [mbind Result_bind] in Hm.
  destruct (tag_args_shape _ _ _ _ Ha) as (tail & -> & Hl).
  exists tag, d, tail. repeat split; auto.
  exact (build_meta_args K _ _ _ Hm).
Qed.

Lemma records_name_their_tags_witness :
  exists d,
    parse_outcome spec_keywords ∅ mixed_tags = Ok (Some d)
    /\ Forall2 (fun chunk m =>
                  exists tag desc_chunk tail,
                    split_tag chunk = Ok (tag, desc_chunk)
                    /\ meta_args m = strip_chars (String nl "") tag :: tail
                    /\ length tail <= 2)
               (tag_chunks mixed_tags) (meta d).
Proof.
  eexists. split; [vm_compute; reflexivity|].
  apply (records_name_their_tags spec_keywords ∅ mixed_tags).
  vm_compute. reflexivity.
Defined.

End Totality.

(** ** The arity check of [_build_meta] *)

Section BuildMetaArity.
Import PyStr.

(** For a param keyword, [_build_meta] accepts two or three tokens and
    nothing else: with one token, or with more than three, it raises the
    [ParseError] that names the key; with two or three it raises no
    [ParseError]. *)
Theorem build_meta_param_arity (K : Keywords) (key : string) (tail : list string)
        (desc : string) :
  key ∈ PARAM_KEYWORDS K ->
  (length tail <> 1 /\ length tail <> 2 ->
   _build_meta K (key :: tail) desc
   = Raise (ParseError
              ("Expected two or three arguments for a " ++ key ++ " keyword.")))
  /\ (length tail = 1 \/ length tail = 2 ->
      forall msg, _build_meta K (key :: tail) desc <> Raise (ParseError msg)).
Proof.
  intros HK. split.
  - intros [H1 H2]. unfold _build_meta. rewrite (bool_decide_true _ HK).
    destruct tail as [|a [|b [|c tail]]]; simpl in H1, H2; try lia; reflexivity.
  - intros Hlen msg.
    destruct tail as [|a [|b [|c tail]]]; simpl in Hlen; try lia.
    + apply build_meta_two_tokens.
    + rewrite (build_meta_param K _ _ _ _ HK).
      pose proof (scan_param_token_no_ParseError
                    {| v_type_name := None; v_arg_name := None;
                       v_is_optional := None; v_default := None |} a msg) as Ha.
      destruct (scan_param_token _ a) as [st|e]; cbn [mbind Result_bind];
        [|congruence].
      pose proof (scan_param_token_no_ParseError st b msg) as Hb.
      destruct (scan_param_token st b) as [st'|e]; cbn [mbind Result_bind];
        [|congruence].
      destruct (v_arg_name st'); discriminate.
Qed.

Lemma build_meta_param_arity_witness :
  _build_meta spec_keywords ["param"] "text"
  = Raise (ParseError "Expected two or three arguments for a param keyword.")
  /\ _build_meta spec_keywords ["param"; "a"; "b"; "c"] "text"
     = Raise (ParseError "Expected two or three arguments for a param keyword.").
Proof.
  assert (HK : "param" ∈ PARAM_KEYWORDS spec_keywords)
    by (apply (bool_decide_unpack _); vm_compute; exact I).
  split.
  - apply (proj1 (build_meta_param_arity spec_keywords "param" [] "text" HK)).
    simpl. lia.
  - apply (proj1 (build_meta_param_arity spec_keywords "param" ["a"; "b"; "c"]
                    "text" HK)).
    simpl. lia.
Defined.

(** A tag of the param class that is none of the six names the interpreter
    gives a grammar to cannot be parsed: the interpreter hands
    [_build_meta] the tag name alone, and the arity check fails whatever
    follows the tag. *)
Theorem param_keyword_without_grammar_raises (K : Keywords)
        (chunk tag desc_chunk : string) :
  split_tag chunk = Ok (tag, desc_chunk) ->
  strip_chars (String nl "") tag ∈ PARAM_KEYWORDS K ->
  strip_chars (String nl "") tag ∉ ["param"; "typedef"; "property"] ->
  strip_chars (String nl "") tag ∉ ["return"; "throws"; "type"] ->
  interpret_chunk K chunk
  = Raise (ParseError
             ("Expected two or three arguments for a "
                ++ strip_chars (String nl "") tag ++ " keyword.")).
Proof.
  intros Hs HK H1 H2.
  pose proof (tag_args_other tag desc_chunk H1 H2) as Ha.
  destruct (clean_description_Ok desc_chunk) as [description Hd].
  rewrite (interpret_chunk_eq K _ _ _ _ _ _ Hs Ha Hd).
  unfold _build_meta. now rewrite (bool_decide_true _ HK).
Qed.

Lemma param_keyword_without_grammar_raises_witness :
  interpret_chunk
    {| PARAM_KEYWORDS := {[ "param"; "arg" ]};
       RAISES_KEYWORDS := ∅; DEPRECATION_KEYWORDS := ∅;
       RETURNS_KEYWORDS := ∅; YIELDS_KEYWORDS := ∅ |}
    "@arg {number} count how many"
  = Raise (ParseError "Expected two or three arguments for a arg keyword.").
Proof.
  apply (param_keyword_without_grammar_raises _ "@arg {number} count how many"
           "arg" "{number} count how many").
  - reflexivity.
  - apply (bool_decide_unpack _). vm_compute. exact I.
  - apply (bool_decide_unpack _). vm_compute. exact I.
  - apply (bool_decide_unpack _). vm_compute. exact I.
Defined.

Lemma scan_one_character (st : ParamLocals) (x : ascii) :
  scan_param_token st (String x "")
  = Ok {| v_type_name := v_type_name st; v_arg_name := Some (String x "");
          v_is_optional := v_is_optional st; v_default := v_default st |}.
Proof.
  unfold scan_param_token, Re.search_span, Re.match_span.
  destruct (Ascii.eqb x "{"), (Ascii.eqb x "["); reflexivity.
Qed.

Lemma scan_characters (st : ParamLocals) (s : string) (c : ascii) :
  for_tokens scan_param_token st (chars (s ++ String c ""))
  = Ok {| v_type_name := v_type_name st; v_arg_name := Some (String c "");
          v_is_optional := v_is_optional st; v_default := v_default st |}.
Proof.
  revert st. induction s as [|x s IH]; intros st; cbn [String.append chars for_tokens];
    rewrite scan_one_character; cbn [mbind Result_bind]; [reflexivity|].
  now rewrite IH.
Qed.

(** With two tokens, [_build_meta] takes the second for the sequence of
    names and visits it character by character: for a param keyword the
    record has the last character of the token as [arg_name] and no type,
    and an empty token raises [UnboundLocalError]. *)
Theorem build_meta_two_tokens_by_character (K : Keywords) (key s : string)
        (c : ascii) (desc : string) :
  key ∈ PARAM_KEYWORDS K ->
  _build_meta K [key; s ++ String c ""] desc
  = Ok (DocstringParam [key; s ++ String c ""] desc (String c "") None None None)
  /\ _build_meta K [key; ""] desc = Raise UnboundLocalError.
Proof.
  intros HK. unfold _build_meta. rewrite !(bool_decide_true _ HK).
  cbn [mbind Result_bind]. rewrite scan_characters. split; reflexivity.
Qed.

Lemma build_meta_two_tokens_by_character_witness :
  _build_meta spec_keywords ["param"; "name"] "text"
  = Ok (DocstringParam ["param"; "name"] "text" "e" None None None).
Proof.
  apply (build_meta_two_tokens_by_character spec_keywords "param" "nam" "e" "text").
  apply (bool_decide_unpack _). vm_compute. exact I.
Defined.

End BuildMetaArity.

(** ** A param chunk without a description *)

Section ParamTwoFields.
Import PyStr.

Lemma rstrip_by_all (p : ascii -> bool) (a b : string) :
  all p b = true -> rstrip_by p (a ++ b) = rstrip_by p a.
Proof.
  intros Hb.
  assert (H0 : rstrip_by p b = "").
  { induction b as [|x b IH]; simpl in *; [reflexivity|].
    apply andb_true_iff in Hb as [Hx Hb]. now rewrite (IH Hb), Hx. }
  induction a as [|x a IH]; simpl; [exact H0|]. now rewrite IH.
Qed.

(** For every chunk [@param {T} name] that ends there, or goes on with
    newlines only (the chunk of a tag that another tag follows), the record
    has [type_name == T], [arg_name == name] and the empty description. *)
Theorem param_without_description (K : Keywords) (T name newlines : string) :
  "param" ∈ PARAM_KEYWORDS K ->
  plain_type T = true -> plain_name name = true ->
  all (fun c => Ascii.eqb c nl) newlines = true ->
  interpret_chunk K ("@param {" ++ T ++ "} " ++ name ++ newlines)
  = Ok (DocstringParam ["param"; "{" ++ T ++ "}"; name] "" name (Some T) None None).
Proof.
  intros HK HT Hn Hnl.
  destruct (plain_type_inv _ HT) as (HTs & HTn & _).
  destruct (plain_name_inv _ Hn) as (Hns & Hnn & _).
  rewrite (interpret_chunk_eq K _ "param" ("{" ++ T ++ "} " ++ name ++ newlines)
             "" "" ["param"; "{" ++ T ++ "}"; name]).
  - now apply build_param_plain.
  - apply (split_tag_space "param"). reflexivity.
  - unfold tag_args. rewrite bool_decide_true by apply list_elem_of_here.
    simpl String.append. unfold lstrip, strip_chars.
    rewrite !lstrip_by_head by reflexivity.
    replace (String "{" (T ++ String "}" (String " " (name ++ newlines))))
      with (String "{" (T ++ String "}" (String " " name)) ++ newlines)
      by (simpl; now rewrite append_assoc).
    rewrite rstrip_by_all.
    2:{ clear -Hnl. induction newlines as [|x s IH]; cbn [all] in *; [reflexivity|].
        apply andb_true_iff in Hnl as [Hx Hs].
        apply Ascii.eqb_eq in Hx as ->. now rewrite (IH Hs). }
    rewrite rstrip_by_id.
    2:{ apply absent_not_stripped. simpl. rewrite contains_app, HTn. simpl.
        exact Hnn. }
    replace (String "{" (T ++ String "}" (String " " name)))
      with (String "{" (T ++ "}") ++ String " " name)
      by (simpl; now rewrite append_assoc).
    rewrite split_app by (simpl; rewrite contains_app, HTs; reflexivity).
    rewrite (split_no_sep _ _ _ Hns).
    fold (strip_chars (String nl "") name).
    now rewrite (strip_chars_absent _ _ Hnn).
  - reflexivity.
Qed.

Lemma param_without_description_witness :
  interpret_chunk spec_keywords ("@param {string} n" ++ String nl "")
  = Ok (DocstringParam ["param"; "{string}"; "n"] "" "n" (Some "string") None None).
Proof.
  apply (param_without_description spec_keywords "string" "n" (String nl "")).
  - apply (bool_decide_unpack _). vm_compute. exact I.
  - reflexivity.
  - reflexivity.
  - reflexivity.
Defined.

End ParamTwoFields.

(** ** Where the arity error of lines 199-201 stops *)

Section ArityBoundary.
Import PyStr.

(** A string that holds a space splits, at no more than two spaces, into two
    or three fields. *)
Lemma split_two_or_three (s : string) :
  contains " " s = true ->
  exists u a, split " " 2 s = [u; a] \/ exists d, split " " 2 s = [u; a; d].
Proof.
  intros H. destruct (partition_Some _ _ H) as (u & b & Hp & _ & _).
  cbn [split]. rewrite Hp.
  destruct (partition " " b) as [[a d]|]; eauto.
Qed.

(** A newline right before the first field is part of the tag: the chunk
    [@param], newline, [x] has the tag name [param\nx] and gives a generic
    record. *)
Example newline_before_field_joins_tag :
  interpret_chunk spec_keywords ("@param" ++ String nl "x")
  = Ok (DocstringMeta_ ["param" ++ String nl "x"] "").
Proof. vm_compute. reflexivity. Qed.

(** When the tag is [param], [typedef] or [property] and the rest, stripped
    as the interpreter strips it, holds a space, the chunk raises no
    [ParseError] at all: the split of line 192 gives two or three fields,
    the token set has three tokens, and [_build_meta] accepts three.  With
    the case of no space, which raises, this bounds the arity error of
    lines 199-201 exactly. *)
Theorem param_with_space_no_arity_error (K : Keywords)
        (chunk tag desc_chunk : string) :
  split_tag chunk = Ok (tag, desc_chunk) ->
  tag ∈ ["param"; "typedef"; "property"] ->
  contains " " (strip_chars (String nl "") (lstrip desc_chunk)) = true ->
  forall msg, interpret_chunk K chunk <> Raise (ParseError msg).
Proof.
  intros Hs Ht Hsp msg.
  assert (Ha : exists u a d, tag_args tag desc_chunk = Ok ([tag; u; a], d)).
  { unfold tag_args. rewrite (bool_decide_true _ Ht).
    destruct (split_two_or_three _ Hsp) as (u & a & [-> | [d ->]]); eauto. }
  destruct Ha as (u & a & d & Ha).
  destruct (clean_description_Ok d) as [description Hd].
  rewrite (interpret_chunk_eq K _ _ _ _ _ _ Hs Ha Hd).
  destruct (decide (tag ∈ PARAM_KEYWORDS K)) as [HK|HK].
  - rewrite (build_meta_param K _ _ _ _ HK).
    pose proof (scan_param_token_no_ParseError
                  {| v_type_name := None; v_arg_name := None;
                     v_is_optional := None; v_default := None |} u msg) as Hu.
    destruct (scan_param_token _ u) as [st|e]; cbn [mbind Result_bind];
      [|congruence].
    pose proof (scan_param_token_no_ParseError st a msg) as Hb.
    destruct (scan_param_token st a) as [st'|e]; cbn [mbind Result_bind];
      [|congruence].
    destruct (v_arg_name st'); discriminate.
  - destruct (build_meta_outside_param K tag [u; a] description HK) as (m & -> & _).
    discriminate.
Qed.

Lemma param_with_space_no_arity_error_witness :
  interpret_chunk spec_keywords "@param x "
  <> Raise (ParseError (arity_message "param")).
Proof.
  apply (param_with_space_no_arity_error spec_keywords "@param x " "param" "x ").
  - reflexivity.
  - apply (bool_decide_unpack _). vm_compute. exact I.
  - reflexivity.
Defined.

End ArityBoundary.
